(** * FAIR risk calculator: a shallow embedding of [fair_calculator.py]
      and of the two JSON endpoints of [app.py] that call it.

    Numbers.  Python's [float] and NumPy's [float64] are modelled by the
    exact rationals [Q]; equality of numbers is [Qeq] ([==]).  The model
    therefore has no rounding error, no infinities and no NaN: what is
    proved below is the arithmetic the program performs, not the last bit
    of its binary64 results.  In particular one exact rounding stands for
    both Python's [round] and NumPy's (which scales, rounds and unscales in
    binary64), and [np.mean] is the exact mean.  Where overflow decides a
    property, the lines concerned are run again on binary64 numbers, in
    module [binary64].

    NumPy is a dependency of the program, not part of it.  The handful of
    NumPy functions the calculator calls are modelled from their documented
    behaviour ([np.random.uniform], [np.mean], [np.median], [np.std],
    [np.min], [np.max], [np.percentile], [np.sum] of a boolean array); the
    square root inside [np.std], which has no rational value in general, is
    a parameter of the simulation. *)

From Stdlib Require Import QArith Qround Qabs Qminmax Lqa Lia ZArith String List.
From Stdlib Require Import PrimFloat.
From stdpp Require Import gmap strings list sorting.

Local Open Scope Q_scope.

(** ** Comparisons of numbers, as booleans *)

Definition Qltb (x y : Q) : bool := if Qlt_le_dec x y then true else false.
Definition Qgeb (x y : Q) : bool := Qle_bool y x.

#[global] Instance Qle_dec : RelDecision Qle :=
  fun x y =>
    match Qlt_le_dec y x with
    | left H => right (Qlt_not_le y x H)
    | right H => left H
    end.

(** ** Python's [round(x, ndigits)]

    Rounds to the nearest multiple of [10^-ndigits]; a tie goes to the
    even neighbour. *)

Definition round_half_even (x : Q) : Z :=
  let f := Qfloor x in
  let r := x - inject_Z f in
  if Qltb r (1 # 2) then f
  else if Qltb (1 # 2) r then (f + 1)%Z
  else if Z.even f then f else (f + 1)%Z.

Definition pow10 (ndigits : nat) : Q := inject_Z (10 ^ Z.of_nat ndigits).

Definition round (x : Q) (ndigits : nat) : Q :=
  inject_Z (round_half_even (x * pow10 ndigits)) / pow10 ndigits.

(** ** The part of NumPy the calculator calls *)

Module np.

(** The exceptions NumPy raises on the calls below, with their message. *)
Inductive exn : Type :=
| ValueError (msg : string).

Definition str (e : exn) : string :=
  match e with ValueError msg => msg end.

(** [np.random]'s process-wide generator.  [stream] is the sequence of
    unit-interval doubles the generator yields from its current seed and
    [pos] counts how many of them have been consumed. *)
Record RandomState : Type := mkRandomState {
  stream : nat -> Q;
  pos : nat
}.

Definition advance (n : nat) (rs : RandomState) : RandomState :=
  {| stream := stream rs; pos := (pos rs + n)%nat |}.

(** Computations that read and advance the generator and may raise.  The
    generator is global, so its state survives an exception. *)
Definition M (A : Type) : Type := RandomState -> (exn + A) * RandomState.

Definition ret {A} (a : A) : M A := fun rs => (inr a, rs).
Definition raise {A} (e : exn) : M A := fun rs => (inl e, rs).
Definition lift {A} (r : exn + A) : M A := fun rs => (r, rs).
Definition bind {A B} (c : M A) (k : A -> M B) : M B :=
  fun rs =>
    match c rs with
    | (inl e, rs') => (inl e, rs')
    | (inr a, rs') => k a rs'
    end.

(** [np.random.uniform(low, high, size)]: [size] draws, each
    [low + (high - low) * u] for the next unit draw [u].  Neither the order
    of [low] and [high] nor their sign is checked; a negative [size] is
    refused. *)
Definition random_uniform (low high : Q) (size : Z) : M (list Q) :=
  fun rs =>
    if (size <? 0)%Z then
      raise (ValueError "negative dimensions are not allowed") rs
    else
      let n := Z.to_nat size in
      (inr (List.map (fun i => low + (high - low) * stream rs (pos rs + i)%nat)
                     (seq 0 n)),
       advance n rs).

(** Element-wise [a * b] of two arrays. *)
Definition multiply (a b : list Q) : list Q := zip_with Qmult a b.

(** Element-wise [a < c], [a >= c] against a scalar and [m1 & m2]. *)
Definition less (a : list Q) (c : Q) : list bool :=
  List.map (fun x => Qltb x c) a.
Definition greater_equal (a : list Q) (c : Q) : list bool :=
  List.map (fun x => Qgeb x c) a.
Definition logical_and (m1 m2 : list bool) : list bool := zip_with andb m1 m2.

(** [np.sum] of a boolean array: the number of [True] entries. *)
Fixpoint sum_bool (mask : list bool) : Z :=
  match mask with
  | [] => 0%Z
  | b :: mask' => ((if b then 1 else 0) + sum_bool mask')%Z
  end.

Definition size (a : list Q) : Q := inject_Z (Z.of_nat (length a)).

Definition sum (a : list Q) : Q := fold_right Qplus 0 a.

(** [np.mean], [np.median], [np.std] and [np.percentile] return [nan] on an
    empty array; the calculator never returns such a value, because
    [np.min] raises on the same array first.  On the empty array the
    functions below return 0. *)
Definition mean (a : list Q) : Q := sum a / size a.

Definition sort (a : list Q) : list Q := merge_sort Qle a.

Definition median (a : list Q) : Q :=
  let s := sort a in
  let n := length s in
  if Nat.even n
  then (nth (n / 2 - 1) s 0 + nth (n / 2) s 0) / 2
  else nth (n / 2) s 0.

Section Std.
(** The square root of [np.std]. *)
Variable sqrt : Q -> Q.

(** Population standard deviation: [sqrt(mean(abs(a - mean(a))**2))]. *)
Definition std (a : list Q) : Q :=
  let m := mean a in
  sqrt (mean (List.map (fun x => Qabs (x - m) * Qabs (x - m)) a)).
End Std.

Definition min (a : list Q) : exn + Q :=
  match a with
  | [] => inl (ValueError
      "zero-size array to reduction operation minimum which has no identity")
  | x :: a' => inr (fold_left Qmin a' x)
  end.

Definition max (a : list Q) : exn + Q :=
  match a with
  | [] => inl (ValueError
      "zero-size array to reduction operation maximum which has no identity")
  | x :: a' => inr (fold_left Qmax a' x)
  end.

Definition lerp (a b t : Q) : Q := a + (b - a) * t.

(** [np.percentile(a, q)] with the default, linear method: the value at
    the virtual index [q/100 * (n - 1)] of the sorted array, interpolated
    between its two neighbours. *)
Definition percentile (a : list Q) (q : Q) : Q :=
  let s := sort a in
  let n := length s in
  let virtual_index := q / 100 * (size s - 1) in
  let previous_index := Z.to_nat (Qfloor virtual_index) in
  let next_index := Nat.min (previous_index + 1) (n - 1) in
  let gamma := virtual_index - inject_Z (Qfloor virtual_index) in
  lerp (nth previous_index s 0) (nth next_index s 0) gamma.

End np.

Notation "'let!' x ':=' c 'in' k" := (np.bind c (fun x => k))
  (at level 10, x name, c at level 100, k at level 200).

(** ** [class FAIRCalculator] *)

Module FAIRCalculator.

(** The four attributes set by [__init__]. *)
Record t : Type := init {
  asset_value : Q;
  threat_event_frequency : Q;
  vulnerability : Q;
  loss_magnitude : Q
}.

Definition calculate_loss_event_frequency (self : t) : Q :=
  threat_event_frequency self * vulnerability self.

Definition calculate_annual_loss_expectancy (self : t) : Q :=
  let lef := calculate_loss_event_frequency self in
  lef * loss_magnitude self.

Definition calculate_single_loss_expectancy (self : t) : Q :=
  loss_magnitude self.

(** The dictionary [{'level': .., 'color': .., 'priority': ..}]. *)
Record RiskLevel : Type := mkRiskLevel {
  level : string;
  color : string;
  priority : string
}.

Definition calculate_risk_level (self : t) (ale : Q) : RiskLevel :=
  if Qltb ale 10000 then mkRiskLevel "Low" "green" "P4"
  else if Qltb ale 50000 then mkRiskLevel "Medium" "yellow" "P3"
  else if Qltb ale 200000 then mkRiskLevel "High" "orange" "P2"
  else mkRiskLevel "Critical" "red" "P1".

(** The dictionary returned by [calculate], one field per key. *)
Record Metrics : Type := mkMetrics {
  m_asset_value : Q;
  m_threat_event_frequency : Q;
  m_vulnerability : Q;
  m_loss_magnitude : Q;
  loss_event_frequency : Q;
  single_loss_expectancy : Q;
  annual_loss_expectancy : Q;
  risk_level : string;
  risk_color : string;
  risk_priority : string;
  risk_exposure_percentage : Q
}.

(** The value of [risk_exposure_pct] before it is rounded. *)
Definition risk_exposure_pct (self : t) : Q :=
  let ale := calculate_annual_loss_expectancy self in
  if Qltb 0 (asset_value self) then ale / asset_value self * 100 else 0.

Definition calculate (self : t) : Metrics :=
  let lef := calculate_loss_event_frequency self in
  let ale := calculate_annual_loss_expectancy self in
  let sle := calculate_single_loss_expectancy self in
  let risk_level := calculate_risk_level self ale in
  let risk_exposure_pct :=
    if Qltb 0 (asset_value self) then ale / asset_value self * 100 else 0 in
  {| m_asset_value := round (asset_value self) 2;
     m_threat_event_frequency := round (threat_event_frequency self) 2;
     m_vulnerability := round (vulnerability self) 3;
     m_loss_magnitude := round (loss_magnitude self) 2;
     loss_event_frequency := round lef 3;
     single_loss_expectancy := round sle 2;
     annual_loss_expectancy := round ale 2;
     risk_level := level risk_level;
     risk_color := color risk_level;
     risk_priority := priority risk_level;
     risk_exposure_percentage := round risk_exposure_pct 2 |}.

(** The dictionaries nested in the result of [monte_carlo_simulation]. *)
Record RiskDistribution : Type := mkRiskDistribution {
  low : Z;
  medium : Z;
  high : Z;
  critical : Z
}.

Record Confidence : Type := mkConfidence {
  lower : Q;
  upper : Q
}.

(** The dictionary returned by [monte_carlo_simulation].  [percentiles] is
    built by a comprehension over the items of a dictionary and is kept as
    the list of its items, in insertion order. *)
Record Simulation : Type := mkSimulation {
  iterations : Z;
  mean_ale : Q;
  median_ale : Q;
  std_dev : Q;
  min_ale : Q;
  max_ale : Q;
  percentiles : list (string * Q);
  risk_distribution : RiskDistribution;
  confidence_95 : Confidence
}.

Section MonteCarlo.
Variable sqrt : Q -> Q.

Definition monte_carlo_simulation (self : t)
    (tef_range vuln_range loss_range : Q * Q) (iterations : Z)
    : np.M Simulation :=
  (* Generate random samples *)
  let! tef_samples :=
    np.random_uniform (fst tef_range) (snd tef_range) iterations in
  let! vuln_samples :=
    np.random_uniform (fst vuln_range) (snd vuln_range) iterations in
  let! loss_samples :=
    np.random_uniform (fst loss_range) (snd loss_range) iterations in
  (* Calculate ALE for each iteration *)
  let lef_samples := np.multiply tef_samples vuln_samples in
  let ale_samples := np.multiply lef_samples loss_samples in
  (* Calculate statistics *)
  let ale_mean := np.mean ale_samples in
  let ale_median := np.median ale_samples in
  let ale_std := np.std sqrt ale_samples in
  let! ale_min := np.lift (np.min ale_samples) in
  let! ale_max := np.lift (np.max ale_samples) in
  (* Calculate percentiles *)
  let percentiles :=
    [ ("10th", np.percentile ale_samples 10);
      ("25th", np.percentile ale_samples 25);
      ("50th", np.percentile ale_samples 50);
      ("75th", np.percentile ale_samples 75);
      ("90th", np.percentile ale_samples 90);
      ("95th", np.percentile ale_samples 95);
      ("99th", np.percentile ale_samples 99) ] in
  (* Calculate risk level distribution *)
  let low := np.sum_bool (np.less ale_samples 10000) in
  let medium :=
    np.sum_bool (np.logical_and (np.greater_equal ale_samples 10000)
                                (np.less ale_samples 50000)) in
  let high :=
    np.sum_bool (np.logical_and (np.greater_equal ale_samples 50000)
                                (np.less ale_samples 200000)) in
  let critical := np.sum_bool (np.greater_equal ale_samples 200000) in
  np.ret
    {| iterations := iterations;
       mean_ale := round ale_mean 2;
       median_ale := round ale_median 2;
       std_dev := round ale_std 2;
       min_ale := round ale_min 2;
       max_ale := round ale_max 2;
       percentiles :=
         List.map (fun kv => (fst kv, round (snd kv) 2)) percentiles;
       risk_distribution :=
         {| low := low; medium := medium; high := high;
            critical := critical |};
       confidence_95 :=
         {| lower := round (np.percentile ale_samples (25 # 10)) 2;
            upper := round (np.percentile ale_samples (975 # 10)) 2 |} |}.
End MonteCarlo.

End FAIRCalculator.



(** ** The JSON endpoints of [app.py]

    [request.get_json()] is the dictionary [data]; its values are numbers
    (a value [float] or [int] cannot convert raises, and the handler then
    answers 500 from its [except] branch; that path is outside the model). *)

Module app.

Import FAIRCalculator.

(** The JSON bodies the two handlers can answer with. *)
Inductive Body : Type :=
| ResultsBody (success : bool) (results : Metrics)
| SimulationBody (success : bool) (simulation : Simulation)
| ErrorBody (error : string)
| FailureBody (success : bool) (error : string).

Record Response : Type := mkResponse {
  body : Body;
  status : Z
}.

(** [data.get(key, default)] *)
Definition get (data : gmap string Q) (key : string) (dflt : Q) : Q :=
  default dflt (data !! key).

(** [int(x)]: truncation towards zero. *)
Definition int (x : Q) : Z := if Qltb x 0 then Qceiling x else Qfloor x.

Definition calculate_risk (data : gmap string Q) : Response :=
  (* Extract input parameters *)
  let asset_value := get data "asset_value" 0 in
  let threat_event_frequency := get data "threat_event_frequency" 0 in
  let vulnerability := get data "vulnerability" 0 in
  let loss_magnitude := get data "loss_magnitude" 0 in
  (* Validate inputs *)
  if Qle_bool asset_value 0 then
    {| body := ErrorBody "Asset value must be greater than 0"; status := 400 |}
  else
    let calculator :=
      init asset_value threat_event_frequency vulnerability loss_magnitude in
    let results := calculate calculator in
    {| body := ResultsBody true results; status := 200 |}.

Section MonteCarlo.
Variable sqrt : Q -> Q.

Definition run_monte_carlo (data : gmap string Q)
    : np.RandomState -> Response * np.RandomState :=
  fun rs =>
    let asset_value := get data "asset_value" 0 in
    let tef_min := get data "tef_min" 1 in
    let tef_max := get data "tef_max" 10 in
    let vuln_min := get data "vuln_min" (1 # 10) in
    let vuln_max := get data "vuln_max" (9 # 10) in
    let loss_min := get data "loss_min" 10000 in
    let loss_max := get data "loss_max" 100000 in
    let iterations := int (get data "iterations" 10000) in
    let calculator :=
      init asset_value ((tef_min + tef_max) / 2)
           ((vuln_min + vuln_max) / 2) ((loss_min + loss_max) / 2) in
    match
      monte_carlo_simulation sqrt calculator (tef_min, tef_max)
        (vuln_min, vuln_max) (loss_min, loss_max) iterations rs
    with
    | (inr simulation_results, rs') =>
        ({| body := SimulationBody true simulation_results;
            status := 200 |}, rs')
    | (inl e, rs') =>
        ({| body := FailureBody false (np.str e); status := 500 |}, rs')
    end.
End MonteCarlo.

End app.

(** ** Instances on which the model is run

    A square root on the rationals, rounded down to six decimals, and a
    generator whose [i]-th unit draw is [i / (i + 1)]. *)

Definition sqrt6 (x : Q) : Q :=
  inject_Z (Z.sqrt (Qfloor (x * inject_Z (10 ^ 12)))) / inject_Z (10 ^ 6).

Definition harmonic_stream (i : nat) : Q :=
  inject_Z (Z.of_nat i) / inject_Z (Z.of_nat (S i)).

Definition rs0 : np.RandomState :=
  {| np.stream := harmonic_stream; np.pos := 0 |}.

(** ** Definitions used to state the properties *)

(** The outcome vector [ale_samples] of a simulation: the first five
    assignments of [monte_carlo_simulation]. *)
Definition ale_samples (tef_range vuln_range loss_range : Q * Q)
    (iterations : Z) : np.M (list Q) :=
  let! tef_samples :=
    np.random_uniform (fst tef_range) (snd tef_range) iterations in
  let! vuln_samples :=
    np.random_uniform (fst vuln_range) (snd vuln_range) iterations in
  let! loss_samples :=
    np.random_uniform (fst loss_range) (snd loss_range) iterations in
  np.ret (np.multiply (np.multiply tef_samples vuln_samples) loss_samples).

(** How many entries of [a] satisfy [p]. *)
Definition count (p : Q -> bool) (a : list Q) : Z :=
  np.sum_bool (List.map p a).

(** The result dictionary built from an outcome vector, its minimum and
    its maximum: the [return] of [monte_carlo_simulation]. *)
Definition summary (sqrt : Q -> Q) (iterations : Z) (ale_samples : list Q)
    (ale_min ale_max : Q) : FAIRCalculator.Simulation :=
  {| FAIRCalculator.iterations := iterations;
     FAIRCalculator.mean_ale := round (np.mean ale_samples) 2;
     FAIRCalculator.median_ale := round (np.median ale_samples) 2;
     FAIRCalculator.std_dev := round (np.std sqrt ale_samples) 2;
     FAIRCalculator.min_ale := round ale_min 2;
     FAIRCalculator.max_ale := round ale_max 2;
     FAIRCalculator.percentiles :=
       [ ("10th", round (np.percentile ale_samples 10) 2);
         ("25th", round (np.percentile ale_samples 25) 2);
         ("50th", round (np.percentile ale_samples 50) 2);
         ("75th", round (np.percentile ale_samples 75) 2);
         ("90th", round (np.percentile ale_samples 90) 2);
         ("95th", round (np.percentile ale_samples 95) 2);
         ("99th", round (np.percentile ale_samples 99) 2) ];
     FAIRCalculator.risk_distribution :=
       {| FAIRCalculator.low := count (fun x => Qltb x 10000) ale_samples;
          FAIRCalculator.medium :=
            count (fun x => Qgeb x 10000 && Qltb x 50000) ale_samples;
          FAIRCalculator.high :=
            count (fun x => Qgeb x 50000 && Qltb x 200000) ale_samples;
          FAIRCalculator.critical :=
            count (fun x => Qgeb x 200000) ale_samples |};
     FAIRCalculator.confidence_95 :=
       {| FAIRCalculator.lower :=
            round (np.percentile ale_samples (25 # 10)) 2;
          FAIRCalculator.upper :=
            round (np.percentile ale_samples (975 # 10)) 2 |} |}.

(** The reduction of an outcome vector: the rest of
    [monte_carlo_simulation], from [# Calculate statistics] on. *)
Definition summarize (sqrt : Q -> Q) (iterations : Z) (ale_samples : list Q)
    : np.exn + FAIRCalculator.Simulation :=
  match np.min ale_samples, np.max ale_samples with
  | inl e, _ => inl e
  | inr _, inl e => inl e
  | inr ale_min, inr ale_max =>
      inr (summary sqrt iterations ale_samples ale_min ale_max)
  end.


(** Every entry of [a] equals [c]. *)
Abbreviation constant c a := (Forall (fun x => x == c) a).

Definition Low : FAIRCalculator.RiskLevel :=
  FAIRCalculator.mkRiskLevel "Low" "green" "P4".
Definition Medium : FAIRCalculator.RiskLevel :=
  FAIRCalculator.mkRiskLevel "Medium" "yellow" "P3".
Definition High : FAIRCalculator.RiskLevel :=
  FAIRCalculator.mkRiskLevel "High" "orange" "P2".
Definition Critical : FAIRCalculator.RiskLevel :=
  FAIRCalculator.mkRiskLevel "Critical" "red" "P1".

(** The position of a level name on the scale Low, Medium, High,
    Critical. *)
Definition level_rank (name : string) : nat :=
  if String.eqb name "Low" then 0
  else if String.eqb name "Medium" then 1
  else if String.eqb name "High" then 2
  else 3.

(** ** The sampling and the bucket counts in IEEE binary64

    Rocq's primitive floats are IEEE 754 binary64 numbers with rounding to
    nearest even, as Python's [float] and NumPy's [float64], with their
    infinities and NaN.  The definitions below run on them the lines of
    [monte_carlo_simulation] that draw the samples, multiply them and count
    the buckets, and the classifier [calculate_risk_level]. *)

Module binary64.

(** The generator: [stream] yields its unit-interval doubles. *)
Record RandomState : Type := mkRandomState {
  stream : nat -> float;
  pos : nat
}.

(** [np.random.uniform(low, high, size)] for a size that is not negative. *)
Definition random_uniform (low high : float) (size : nat) (rs : RandomState)
    : list float * RandomState :=
  (List.map (fun i => (low + (high - low) * stream rs (pos rs + i)%nat)%float)
            (seq 0 size),
   {| stream := stream rs; pos := (pos rs + size)%nat |}).

Definition multiply (a b : list float) : list float :=
  zip_with PrimFloat.mul a b.

(** [a < c] and [a >= c]: both are false on NaN. *)
Definition less (a : list float) (c : float) : list bool :=
  List.map (fun x => PrimFloat.ltb x c) a.
Definition greater_equal (a : list float) (c : float) : list bool :=
  List.map (fun x => PrimFloat.leb c x) a.

(** The outcome vector: lines 111 to 117 of [monte_carlo_simulation]. *)
Definition ale_samples (tef_range vuln_range loss_range : float * float)
    (iterations : nat) (rs : RandomState) : list float :=
  let '(tef_samples, rs1) :=
    random_uniform (fst tef_range) (snd tef_range) iterations rs in
  let '(vuln_samples, rs2) :=
    random_uniform (fst vuln_range) (snd vuln_range) iterations rs1 in
  let '(loss_samples, rs3) :=
    random_uniform (fst loss_range) (snd loss_range) iterations rs2 in
  let lef_samples := multiply tef_samples vuln_samples in
  multiply lef_samples loss_samples.

(** The entry ['risk_distribution'] of the result, lines 138 to 141 and 151
    to 156, for an iteration count of at least 1 (with which the function
    returns). *)
Definition risk_distribution (tef_range vuln_range loss_range : float * float)
    (iterations : nat) (rs : RandomState) : FAIRCalculator.RiskDistribution :=
  let ale_samples := ale_samples tef_range vuln_range loss_range iterations rs in
  let low := np.sum_bool (less ale_samples 10000%float) in
  let medium :=
    np.sum_bool (np.logical_and (greater_equal ale_samples 10000%float)
                                (less ale_samples 50000%float)) in
  let high :=
    np.sum_bool (np.logical_and (greater_equal ale_samples 50000%float)
                                (less ale_samples 200000%float)) in
  let critical := np.sum_bool (greater_equal ale_samples 200000%float) in
  {| FAIRCalculator.low := low; FAIRCalculator.medium := medium;
     FAIRCalculator.high := high; FAIRCalculator.critical := critical |}.

Definition calculate_risk_level (ale : float) : FAIRCalculator.RiskLevel :=
  if PrimFloat.ltb ale 10000%float
  then FAIRCalculator.mkRiskLevel "Low" "green" "P4"
  else if PrimFloat.ltb ale 50000%float
  then FAIRCalculator.mkRiskLevel "Medium" "yellow" "P3"
  else if PrimFloat.ltb ale 200000%float
  then FAIRCalculator.mkRiskLevel "High" "orange" "P2"
  else FAIRCalculator.mkRiskLevel "Critical" "red" "P1".

(** The double that Python writes [1e200], and a generator whose every
    draw is one half. *)
Definition f1e200 : float := 0x1.4e718d7d7625ap+664%float.

Definition rs_half : RandomState :=
  {| stream := fun _ => 0.5%float; pos := 0 |}.

End binary64.

(** ** The endpoints on requests whose fields need not be numbers

    The handlers of module [app] take a request whose fields are numbers.
    In [app.py] every field goes through [float] or [int] first, inside the
    [try], and a field that does not convert raises; the handler then
    answers from its [except] branch.  The handlers below include that
    step.  [json] is the type of the values of a request, and [float_] and
    [int_] are Python's conversions of them: the number, or the message of
    the exception raised.  [request_json] is the JSON object of the request,
    or, for a request that has none, the message of the exception that
    [request.get_json()] or the first [data.get] raises. *)

Module request.

Import FAIRCalculator.

Definition bind {A B} (c : string + A) (k : A -> string + B) : string + B :=
  match c with
  | inl e => inl e
  | inr a => k a
  end.

(** The answer of the [except] branch. *)
Definition failure (e : string) : app.Response :=
  {| app.body := app.FailureBody false e; app.status := 500 |}.

Section Conversions.
Variable json : Type.
Variable float_ : json -> string + Q.
Variable int_ : json -> string + Z.
Variable sqrt : Q -> Q.

(** [float(data.get(key, dflt))] and [int(data.get(key, dflt))], for a
    numeric literal [dflt]. *)
Definition get_float (data : gmap string json) (key : string) (dflt : Q)
    : string + Q :=
  match data !! key with
  | Some v => float_ v
  | None => inr dflt
  end.

Definition get_int (data : gmap string json) (key : string) (dflt : Z)
    : string + Z :=
  match data !! key with
  | Some v => int_ v
  | None => inr dflt
  end.

Definition calculate_risk (request_json : string + gmap string json)
    : app.Response :=
  match
    bind request_json (fun data =>
    bind (get_float data "asset_value" 0) (fun asset_value =>
    bind (get_float data "threat_event_frequency" 0)
      (fun threat_event_frequency =>
    bind (get_float data "vulnerability" 0) (fun vulnerability =>
    bind (get_float data "loss_magnitude" 0) (fun loss_magnitude =>
    inr
      (if Qle_bool asset_value 0 then
         {| app.body := app.ErrorBody "Asset value must be greater than 0";
            app.status := 400 |}
       else
         let calculator :=
           init asset_value threat_event_frequency vulnerability
                loss_magnitude in
         let results := calculate calculator in
         {| app.body := app.ResultsBody true results;
            app.status := 200 |}))))))
  with
  | inr response => response
  | inl e => failure e
  end.

Definition run_monte_carlo (request_json : string + gmap string json)
    : np.RandomState -> app.Response * np.RandomState :=
  fun rs =>
    match
      bind request_json (fun data =>
      bind (get_float data "asset_value" 0) (fun asset_value =>
      bind (get_float data "tef_min" 1) (fun tef_min =>
      bind (get_float data "tef_max" 10) (fun tef_max =>
      bind (get_float data "vuln_min" (1 # 10)) (fun vuln_min =>
      bind (get_float data "vuln_max" (9 # 10)) (fun vuln_max =>
      bind (get_float data "loss_min" 10000) (fun loss_min =>
      bind (get_float data "loss_max" 100000) (fun loss_max =>
      bind (get_int data "iterations" 10000) (fun iterations =>
      let calculator :=
        init asset_value ((tef_min + tef_max) / 2)
             ((vuln_min + vuln_max) / 2) ((loss_min + loss_max) / 2) in
      inr (monte_carlo_simulation sqrt calculator (tef_min, tef_max)
             (vuln_min, vuln_max) (loss_min, loss_max) iterations rs))))))))))
    with
    | inr (inr simulation_results, rs') =>
        ({| app.body := app.SimulationBody true simulation_results;
            app.status := 200 |}, rs')
    | inr (inl e, rs') => (failure (np.str e), rs')
    | inl e => (failure e, rs)
    end.
End Conversions.

End request.

(** Requests whose fields are numbers or [null]: [float] and [int] refuse
    [null]. *)
Definition float_of_field (v : option Q) : string + Q :=
  match v with
  | Some q => inr q
  | None =>
      inl "float() argument must be a string or a real number, not 'NoneType'"
  end.

Definition int_of_field (v : option Q) : string + Z :=
  match v with
  | Some q => inr (app.int q)
  | None =>
      inl "int() argument must be a string, a bytes-like object or a real number, not 'NoneType'"
  end.

(** * Properties *)

(** ** Comparisons *)

Lemma Qltb_true x y : Qltb x y = true <-> x < y.
Proof.
  unfold Qltb. destruct (Qlt_le_dec x y) as [H | H]; split; intros; try easy.
  exfalso. apply (Qlt_not_le x y); assumption.
Qed.

Lemma Qltb_false x y : Qltb x y = false <-> y <= x.
Proof.
  unfold Qltb. destruct (Qlt_le_dec x y) as [H | H]; split; intros; try easy.
  exfalso. apply (Qlt_not_le x y); assumption.
Qed.

Lemma Qgeb_true x y : Qgeb x y = true <-> y <= x.
Proof. unfold Qgeb. apply Qle_bool_iff. Qed.

Lemma Qgeb_negb_Qltb x y : Qgeb x y = negb (Qltb x y).
Proof.
  destruct (Qltb x y) eqn:E; simpl.
  - apply Qltb_true in E. destruct (Qgeb x y) eqn:G; [| reflexivity].
    apply Qgeb_true in G. exfalso. apply (Qlt_not_le x y); assumption.
  - apply Qltb_false in E. apply Qgeb_true. assumption.
Qed.

#[global] Instance Qltb_comp : Proper (Qeq ==> Qeq ==> eq) Qltb.
Proof.
  intros x x' Hx y y' Hy.
  destruct (Qltb x' y') eqn:E.
  - apply Qltb_true. apply Qltb_true in E. rewrite Hx, Hy. assumption.
  - apply Qltb_false. apply Qltb_false in E. rewrite Hx, Hy. assumption.
Qed.

(** A case analysis on every comparison of the goal. *)
Ltac cases_Qltb :=
  repeat match goal with
  | |- context [Qltb ?x ?y] =>
      let E := fresh "E" in
      destruct (Qltb x y) eqn:E;
      [apply Qltb_true in E | apply Qltb_false in E]
  end.

(** ** Rounding *)

Lemma pow10_pos n : 0 < pow10 n.
Proof.
  unfold pow10.
  assert (0 < 10 ^ Z.of_nat n)%Z by (apply Z.pow_pos_nonneg; lia).
  unfold Qlt. simpl. lia.
Qed.

Lemma round_half_even_floor x :
  round_half_even x = Qfloor x \/ round_half_even x = (Qfloor x + 1)%Z.
Proof.
  unfold round_half_even. cases_Qltb; auto. destruct (Z.even _); auto.
Qed.

(** Rounding to an integer moves a number by at most one half. *)
Lemma round_half_even_error x :
  inject_Z (round_half_even x) - x <= 1 # 2 /\
  x - inject_Z (round_half_even x) <= 1 # 2.
Proof.
  pose proof (Qfloor_le x) as Hlo. pose proof (Qlt_floor x) as Hhi.
  rewrite inject_Z_plus in Hhi. change (inject_Z 1) with 1 in Hhi.
  unfold round_half_even. cases_Qltb;
    [| | destruct (Z.even _)]; rewrite ?inject_Z_plus;
    change (inject_Z 1) with 1; split; lra.
Qed.

(** Rounding to an integer is monotone. *)
Lemma round_half_even_mono x y :
  x <= y -> (round_half_even x <= round_half_even y)%Z.
Proof.
  intros Hxy.
  pose proof (Qfloor_resp_le _ _ Hxy) as Hf.
  destruct (Z.eq_dec (Qfloor x) (Qfloor y)) as [Heq | Hne].
  - unfold round_half_even. rewrite Heq.
    cases_Qltb; try lia; try (exfalso; lra);
      destruct (Z.even (Qfloor y)); lia.
  - destruct (round_half_even_floor x), (round_half_even_floor y); lia.
Qed.

#[global] Instance round_half_even_comp : Proper (Qeq ==> eq) round_half_even.
Proof.
  intros x y Hxy. unfold round_half_even.
  rewrite (Qfloor_comp _ _ Hxy).
  assert (Hr : x - inject_Z (Qfloor y) == y - inject_Z (Qfloor y))
    by (rewrite Hxy; reflexivity).
  rewrite !Hr. reflexivity.
Qed.

#[global] Instance round_comp : Proper (Qeq ==> eq ==> Qeq) round.
Proof.
  intros x y Hxy n ? <-. unfold round. rewrite Hxy. reflexivity.
Qed.

Lemma round_mono x y n : x <= y -> round x n <= round y n.
Proof.
  intros Hxy. unfold round.
  pose proof (pow10_pos n) as Hp.
  apply Qmult_le_compat_r.
  - rewrite <- Zle_Qle. apply round_half_even_mono.
    apply Qmult_le_compat_r; [assumption | lra].
  - apply Qlt_le_weak, Qinv_lt_0_compat. assumption.
Qed.

(** [round x n] is within half a unit of the [n]-th decimal of [x]. *)
Lemma round_error x n :
  round x n - x <= (1 # 2) / pow10 n /\ x - round x n <= (1 # 2) / pow10 n.
Proof.
  pose proof (pow10_pos n) as Hp.
  destruct (round_half_even_error (x * pow10 n)) as [H1 H2].
  unfold round.
  set (z := inject_Z (round_half_even (x * pow10 n))) in *.
  assert (Hi : 0 <= / pow10 n) by (apply Qlt_le_weak, Qinv_lt_0_compat; exact Hp).
  split.
  - assert (E : z / pow10 n - x == (z - x * pow10 n) / pow10 n)
      by (field; lra).
    rewrite E. apply Qmult_le_compat_r; assumption.
  - assert (E : x - z / pow10 n == (x * pow10 n - z) / pow10 n)
      by (field; lra).
    rewrite E. apply Qmult_le_compat_r; assumption.
Qed.


(** ** The evaluator *)

Section Evaluator.
Import FAIRCalculator.

Lemma Qabs_le_both x e : x <= e -> - x <= e -> Qabs x <= e.
Proof. intros H1 H2. apply Qabs_Qle_condition. split; lra. Qed.

Lemma round_close_2 x y : y == x -> Qabs (round y 2 - x) <= 5 # 1000.
Proof.
  intros E. destruct (round_error y 2) as [H1 H2].
  assert (Hc : (1 # 2) / pow10 2 == 5 # 1000) by reflexivity.
  rewrite Hc in H1, H2. apply Qabs_le_both; lra.
Qed.

Lemma round_close_3 x y : y == x -> Qabs (round y 3 - x) <= 5 # 10000.
Proof.
  intros E. destruct (round_error y 3) as [H1 H2].
  assert (Hc : (1 # 2) / pow10 3 == 5 # 10000) by reflexivity.
  rewrite Hc in H1, H2. apply Qabs_le_both; lra.
Qed.

Lemma risk_exposure_percentage_calculate (self : t) :
  risk_exposure_percentage (calculate self) = round (risk_exposure_pct self) 2.
Proof. reflexivity. Qed.

(** C1, as amended.  The three helper methods compute the FAIR formula
    exactly: LEF = TEF × vulnerability, ALE = LEF × loss magnitude and
    SLE = loss magnitude.  The record returned by [calculate] holds these
    values rounded, LEF to three decimals and ALE and SLE to two, so each
    returned metric is within half a unit of its last decimal of the
    formula's value. *)
Theorem calculate_formula_up_to_rounding (self : t) :
  calculate_loss_event_frequency self
    = threat_event_frequency self * vulnerability self /\
  calculate_annual_loss_expectancy self
    = calculate_loss_event_frequency self * loss_magnitude self /\
  calculate_single_loss_expectancy self = loss_magnitude self /\
  loss_event_frequency (calculate self)
    = round (threat_event_frequency self * vulnerability self) 3 /\
  annual_loss_expectancy (calculate self)
    = round (threat_event_frequency self * vulnerability self
             * loss_magnitude self) 2 /\
  single_loss_expectancy (calculate self) = round (loss_magnitude self) 2 /\
  Qabs (loss_event_frequency (calculate self)
        - threat_event_frequency self * vulnerability self) <= 5 # 10000 /\
  Qabs (annual_loss_expectancy (calculate self)
        - threat_event_frequency self * vulnerability self
          * loss_magnitude self) <= 5 # 1000 /\
  Qabs (single_loss_expectancy (calculate self) - loss_magnitude self)
    <= 5 # 1000.
Proof.
  repeat split; try reflexivity.
  - apply (round_close_3 _ (calculate_loss_event_frequency self)). reflexivity.
  - apply (round_close_2 _ (calculate_annual_loss_expectancy self)). reflexivity.
  - apply (round_close_2 _ (calculate_single_loss_expectancy self)). reflexivity.
Qed.

(** C1 as stated fails: with TEF = 3, vulnerability = 0.0004 and loss
    magnitude = 100000 the returned LEF is 0.001, neither 3 × 0.0004 nor
    the product of the returned TEF and vulnerability, and the returned
    ALE, 120, is not the returned LEF times the loss magnitude. *)
Lemma calculate_formula_not_exact :
  let self := init 1 3 (4 # 10000) 100000 in
  ~ loss_event_frequency (calculate self)
      == threat_event_frequency self * vulnerability self /\
  ~ loss_event_frequency (calculate self)
      == m_threat_event_frequency (calculate self)
         * m_vulnerability (calculate self) /\
  ~ annual_loss_expectancy (calculate self)
      == loss_event_frequency (calculate self) * loss_magnitude self /\
  ~ annual_loss_expectancy (calculate self)
      == loss_event_frequency (calculate self)
         * m_loss_magnitude (calculate self).
Proof. vm_compute. repeat split; discriminate. Qed.

(** The worked scenario of the specification: asset value 1,000,000,
    TEF 6, vulnerability 0.3 and loss magnitude 75,000 give LEF 1.8,
    ALE 135,000, level High and an exposure of 13.5 per cent. *)
Example calculate_scenario :
  let m := calculate (init 1000000 6 (3 # 10) 75000) in
  loss_event_frequency m == 18 # 10 /\ annual_loss_expectancy m == 135000 /\
  risk_level m = "High"%string /\ risk_exposure_percentage m == 135 # 10.
Proof. vm_compute. repeat split. Qed.

(** C2.  The classification of an ALE value uses half-open intervals with
    the thresholds 10,000, 50,000 and 200,000; the six boundary values of
    the specification fall where it says. *)
Theorem calculate_risk_level_thresholds (self : t) (ale : Q) :
  (ale < 10000 -> calculate_risk_level self ale = Low) /\
  (10000 <= ale -> ale < 50000 -> calculate_risk_level self ale = Medium) /\
  (50000 <= ale -> ale < 200000 -> calculate_risk_level self ale = High) /\
  (200000 <= ale -> calculate_risk_level self ale = Critical) /\
  calculate_risk_level self (999999 # 100) = Low /\
  calculate_risk_level self 10000 = Medium /\
  calculate_risk_level self (4999999 # 100) = Medium /\
  calculate_risk_level self 50000 = High /\
  calculate_risk_level self (19999999 # 100) = High /\
  calculate_risk_level self 200000 = Critical.
Proof.
  repeat split; try reflexivity; intros;
    unfold calculate_risk_level; cases_Qltb; try reflexivity; exfalso; lra.
Qed.

Lemma calculate_risk_level_thresholds_witness :
  FAIRCalculator.calculate_risk_level (init 1000000 6 (3 # 10) 75000) 135000
    = High.
Proof.
  apply (calculate_risk_level_thresholds (init 1000000 6 (3 # 10) 75000) 135000);
    vm_compute; congruence.
Defined.

(** C8, as amended.  When the asset value is positive the returned
    exposure percentage is ALE / asset value × 100 rounded to two decimals,
    hence within 0.005 of it; when the asset value is zero or negative it
    is 0. *)
Theorem risk_exposure_percentage_rounded (self : t) :
  (0 < asset_value self ->
     risk_exposure_percentage (calculate self)
       = round (calculate_annual_loss_expectancy self / asset_value self * 100) 2 /\
     Qabs (risk_exposure_percentage (calculate self)
           - calculate_annual_loss_expectancy self / asset_value self * 100)
       <= 5 # 1000) /\
  (asset_value self <= 0 -> risk_exposure_percentage (calculate self) == 0).
Proof.
  rewrite risk_exposure_percentage_calculate. unfold risk_exposure_pct.
  split; intros H.
  - apply Qltb_true in H. rewrite H. split; [reflexivity |].
    apply round_close_2. reflexivity.
  - apply Qltb_false in H. rewrite H. reflexivity.
Qed.

Lemma risk_exposure_percentage_rounded_witness :
  risk_exposure_percentage (calculate (init 1000000 6 (3 # 10) 75000))
    = round (135000 / 1000000 * 100) 2 /\
  risk_exposure_percentage (calculate (init 0 6 (3 # 10) 75000)) == 0.
Proof.
  split.
  - apply (risk_exposure_percentage_rounded (init 1000000 6 (3 # 10) 75000)).
    vm_compute. reflexivity.
  - apply (risk_exposure_percentage_rounded (init 0 6 (3 # 10) 75000)).
    vm_compute. discriminate.
Defined.

(** C8 as stated fails: with asset value 3 and ALE = 1 the returned
    percentage is 33.33, which is not 1 / 3 × 100. *)
Lemma risk_exposure_percentage_not_exact :
  let self := init 3 1 1 1 in
  ~ risk_exposure_percentage (calculate self)
      == calculate_annual_loss_expectancy self / asset_value self * 100 /\
  ~ risk_exposure_percentage (calculate self)
      == annual_loss_expectancy (calculate self)
         / m_asset_value (calculate self) * 100.
Proof. vm_compute. split; discriminate. Qed.

End Evaluator.

(** C6.  The evaluation endpoint rejects a request whose asset value is
    zero or negative (or absent, which reads as 0): it answers 400 with an
    error message and no metrics record. *)
Theorem calculate_risk_rejects_nonpositive_asset (data : gmap string Q) :
  app.get data "asset_value" 0 <= 0 ->
  app.calculate_risk data
    = {| app.body := app.ErrorBody "Asset value must be greater than 0";
         app.status := 400 |}.
Proof.
  intros H. unfold app.calculate_risk.
  apply Qle_bool_iff in H. rewrite H. reflexivity.
Qed.

Lemma calculate_risk_rejects_nonpositive_asset_witness :
  app.calculate_risk
    (<["asset_value" := 0]> (<["loss_magnitude" := 75000]> ∅))
    = {| app.body := app.ErrorBody "Asset value must be greater than 0";
         app.status := 400 |}.
Proof.
  apply calculate_risk_rejects_nonpositive_asset. vm_compute. discriminate.
Defined.

(** ** The simulator: sampling *)

Section Sampling.
Import FAIRCalculator.

Lemma random_uniform_ok low high size rs :
  (0 <= size)%Z ->
  np.random_uniform low high size rs
    = (inr (List.map
              (fun i => low + (high - low) * np.stream rs (np.pos rs + i)%nat)
              (seq 0 (Z.to_nat size))),
       np.advance (Z.to_nat size) rs).
Proof.
  intros H. unfold np.random_uniform.
  destruct (size <? 0)%Z eqn:E; [lia | reflexivity].
Qed.

Lemma random_uniform_negative low high size rs :
  (size < 0)%Z ->
  np.random_uniform low high size rs
    = (inl (np.ValueError "negative dimensions are not allowed"), rs).
Proof.
  intros H. unfold np.random_uniform.
  destruct (size <? 0)%Z eqn:E; [reflexivity | lia].
Qed.

Lemma length_multiply a b :
  length a = length b -> length (np.multiply a b) = length a.
Proof.
  unfold np.multiply. revert b.
  induction a as [| x a IH]; intros [| y b] H; simpl in *; try lia.
  rewrite IH; lia.
Qed.

(** Sampling succeeds for every non-negative iteration count, whatever the
    three ranges, yields that many outcomes and consumes three times as
    many draws. *)
Lemma ale_samples_ok tef_range vuln_range loss_range iterations rs :
  (0 <= iterations)%Z ->
  exists xs,
    ale_samples tef_range vuln_range loss_range iterations rs
      = (inr xs, np.advance (3 * Z.to_nat iterations) rs) /\
    length xs = Z.to_nat iterations.
Proof.
  intros H. unfold ale_samples, np.bind, np.ret.
  rewrite !random_uniform_ok by assumption.
  eexists. split.
  - f_equal. unfold np.advance. simpl. f_equal. lia.
  - rewrite !length_multiply; rewrite ?length_map, ?length_seq; try reflexivity.
    rewrite length_multiply; rewrite ?length_map, ?length_seq; reflexivity.
Qed.

Lemma ale_samples_negative tef_range vuln_range loss_range iterations rs :
  (iterations < 0)%Z ->
  ale_samples tef_range vuln_range loss_range iterations rs
    = (inl (np.ValueError "negative dimensions are not allowed"), rs).
Proof.
  intros H. unfold ale_samples, np.bind.
  rewrite random_uniform_negative by assumption. reflexivity.
Qed.

(** The mask [(a >= lo) & (a < hi)], entry by entry. *)
Lemma logical_and_ge_lt a lo hi :
  np.logical_and (np.greater_equal a lo) (np.less a hi)
    = List.map (fun x => Qgeb x lo && Qltb x hi) a.
Proof.
  unfold np.logical_and, np.greater_equal, np.less.
  induction a as [| x a IH]; simpl; [reflexivity |].
  rewrite <- IH. reflexivity.
Qed.

(** [monte_carlo_simulation] is sampling followed by the reduction. *)
Lemma monte_carlo_simulation_eq sqrt self tef_range vuln_range loss_range
    iterations rs :
  monte_carlo_simulation sqrt self tef_range vuln_range loss_range iterations rs
    = match ale_samples tef_range vuln_range loss_range iterations rs with
      | (inl e, rs') => (inl e, rs')
      | (inr xs, rs') => (summarize sqrt iterations xs, rs')
      end.
Proof.
  unfold monte_carlo_simulation, ale_samples, np.bind, np.ret, np.lift.
  destruct (np.random_uniform _ _ _ rs) as [[e | tef] rs1]; [reflexivity |].
  destruct (np.random_uniform _ _ _ rs1) as [[e | vuln] rs2]; [reflexivity |].
  destruct (np.random_uniform _ _ _ rs2) as [[e | loss] rs3]; [reflexivity |].
  unfold summarize.
  destruct (np.min _) as [e | mn]; [reflexivity |].
  destruct (np.max _) as [e | mx]; [reflexivity |].
  unfold summary, count. rewrite <- !logical_and_ge_lt. reflexivity.
Qed.

End Sampling.

(** ** The simulator: reduction *)

Section Reduction.
Import FAIRCalculator.

Lemma summarize_cons sqrt iterations x xs :
  summarize sqrt iterations (x :: xs)
    = inr (summary sqrt iterations (x :: xs)
             (fold_left Qmin xs x) (fold_left Qmax xs x)).
Proof. reflexivity. Qed.

(** With at least one iteration the simulation returns: it yields the
    summary of a non-empty outcome vector of that length, whatever the
    ranges. *)
Lemma monte_carlo_simulation_ok sqrt self tef_range vuln_range loss_range
    iterations rs :
  (1 <= iterations)%Z ->
  exists x xs,
    ale_samples tef_range vuln_range loss_range iterations rs
      = (inr (x :: xs), np.advance (3 * Z.to_nat iterations) rs) /\
    length (x :: xs) = Z.to_nat iterations /\
    monte_carlo_simulation sqrt self tef_range vuln_range loss_range
      iterations rs
      = (inr (summary sqrt iterations (x :: xs)
                (fold_left Qmin xs x) (fold_left Qmax xs x)),
         np.advance (3 * Z.to_nat iterations) rs).
Proof.
  intros H.
  destruct (ale_samples_ok tef_range vuln_range loss_range iterations rs)
    as (xs & Hs & Hl); [lia |].
  destruct xs as [| x xs]; [simpl in Hl; lia |].
  exists x, xs. repeat split; try assumption.
  rewrite monte_carlo_simulation_eq, Hs, summarize_cons. reflexivity.
Qed.

(** Each outcome falls in exactly one of the four buckets. *)
Lemma bucket_partition (x : Q) :
  ((if Qltb x 10000 then 1 else 0)
   + (if Qgeb x 10000 && Qltb x 50000 then 1 else 0)
   + (if Qgeb x 50000 && Qltb x 200000 then 1 else 0)
   + (if Qgeb x 200000 then 1 else 0) = 1)%Z.
Proof.
  rewrite !Qgeb_negb_Qltb. cases_Qltb; simpl; try reflexivity; exfalso; lra.
Qed.

Lemma count_partition (a : list Q) :
  (count (fun x => Qltb x 10000) a
   + count (fun x => Qgeb x 10000 && Qltb x 50000) a
   + count (fun x => Qgeb x 50000 && Qltb x 200000) a
   + count (fun x => Qgeb x 200000) a = Z.of_nat (length a))%Z.
Proof.
  unfold count. induction a as [| x a IH]; [reflexivity |].
  cbn [List.map np.sum_bool length].
  pose proof (bucket_partition x). lia.
Qed.


Lemma count_le p q a :
  (forall x, p x = true -> q x = true) -> (count p a <= count q a)%Z.
Proof.
  intros Hpq. unfold count. induction a as [| x a IH]; simpl; [lia |].
  destruct (p x) eqn:E; [rewrite (Hpq x E); lia |].
  destruct (q x); lia.
Qed.


End Reduction.

(** ** The simulator: buckets, failures *)

Section Buckets.
Import FAIRCalculator.

(** In exact arithmetic, where every outcome is a number: with [N >= 1]
    iterations the simulation returns, and the four counts of its risk
    distribution add up to [N]; each count is the number of outcomes that
    satisfy its bucket's test, and every number satisfies exactly one of
    the four tests. *)
Theorem risk_distribution_sums_to_iterations sqrt self tef_range vuln_range
    loss_range (N : Z) rs :
  (1 <= N)%Z ->
  exists r rs' xs,
    monte_carlo_simulation sqrt self tef_range vuln_range loss_range N rs
      = (inr r, rs') /\
    ale_samples tef_range vuln_range loss_range N rs = (inr xs, rs') /\
    Z.of_nat (length xs) = N /\
    iterations r = N /\
    low (risk_distribution r) = count (fun x => Qltb x 10000) xs /\
    medium (risk_distribution r)
      = count (fun x => Qgeb x 10000 && Qltb x 50000) xs /\
    high (risk_distribution r)
      = count (fun x => Qgeb x 50000 && Qltb x 200000) xs /\
    critical (risk_distribution r) = count (fun x => Qgeb x 200000) xs /\
    (low (risk_distribution r) + medium (risk_distribution r)
     + high (risk_distribution r) + critical (risk_distribution r) = N)%Z.
Proof.
  intros H.
  destruct (monte_carlo_simulation_ok sqrt self tef_range vuln_range
              loss_range N rs H) as (x & xs & Hs & Hl & Hr).
  eexists _, _, (x :: xs). split; [exact Hr |].
  split; [exact Hs |].
  assert (HN : Z.of_nat (length (x :: xs)) = N) by lia.
  repeat split; try exact HN.
  cbn [risk_distribution summary low medium high critical].
  rewrite count_partition. exact HN.
Qed.


(** C3.  The code breaks the claim on binary64 numbers.  With the ranges
    (1e200, 1e200), (1e200, 1e200) and (0, 0) and three iterations, every
    outcome is 1e200 * 1e200 * 0 = inf * 0 = NaN.  A NaN fails all four
    bucket tests, so the four counts are 0 and add up to 0, not to 3: the
    three outcomes are omitted.  The classifier [calculate_risk_level], by
    its final [else], puts the same value in Critical. *)
Theorem risk_distribution_omits_nan :
  binary64.ale_samples
    (binary64.f1e200, binary64.f1e200) (binary64.f1e200, binary64.f1e200)
    (0%float, 0%float) 3 binary64.rs_half
    = [PrimFloat.nan; PrimFloat.nan; PrimFloat.nan] /\
  binary64.risk_distribution
    (binary64.f1e200, binary64.f1e200) (binary64.f1e200, binary64.f1e200)
    (0%float, 0%float) 3 binary64.rs_half
    = {| low := 0; medium := 0; high := 0; critical := 0 |} /\
  (let d :=
     binary64.risk_distribution
       (binary64.f1e200, binary64.f1e200) (binary64.f1e200, binary64.f1e200)
       (0%float, 0%float) 3 binary64.rs_half in
   low d + medium d + high d + critical d <> 3)%Z /\
  binary64.calculate_risk_level PrimFloat.nan = Critical.
Proof.
  repeat split; try (vm_compute; reflexivity).
  vm_compute. discriminate.
Qed.

(** C5, as amended.  With zero iterations the simulation fails and returns
    no result; the failure is the [ValueError] that the minimum of the
    empty outcome vector raises, not a check of the arguments, and the
    simulation endpoint reports it with status 500.  The ranges are never
    checked: with at least one iteration the simulation returns a result
    whatever the ranges, inverted ones included. *)
Theorem monte_carlo_simulation_failures sqrt self tef_range vuln_range
    loss_range rs :
  monte_carlo_simulation sqrt self tef_range vuln_range loss_range 0 rs
    = (inl (np.ValueError
         "zero-size array to reduction operation minimum which has no identity"),
       rs) /\
  (forall data,
     app.int (app.get data "iterations" 10000) = 0%Z ->
     app.run_monte_carlo sqrt data rs
       = ({| app.body := app.FailureBody false
               "zero-size array to reduction operation minimum which has no identity";
             app.status := 500 |}, rs)) /\
  (forall N, (1 <= N)%Z ->
     exists r rs',
       monte_carlo_simulation sqrt self tef_range vuln_range loss_range N rs
         = (inr r, rs')).
Proof.
  assert (H0 : forall self' r1 r2 r3,
    monte_carlo_simulation sqrt self' r1 r2 r3 0 rs
      = (inl (np.ValueError
           "zero-size array to reduction operation minimum which has no identity"),
         rs)).
  { intros. rewrite monte_carlo_simulation_eq.
    unfold ale_samples, np.bind, np.ret.
    rewrite !random_uniform_ok by lia. simpl.
    destruct rs as [st p]. unfold np.advance. simpl.
    rewrite !Nat.add_0_r. reflexivity. }
  split; [apply H0 |]. split.
  - intros data Hi. unfold app.run_monte_carlo. rewrite Hi, H0. reflexivity.
  - intros N HN.
    destruct (monte_carlo_simulation_ok sqrt self tef_range vuln_range
                loss_range N rs HN) as (x & xs & _ & _ & Hr).
    eauto.
Qed.

Lemma monte_carlo_simulation_failures_witness :
  app.run_monte_carlo sqrt6 (<["iterations" := 0]> ∅) rs0
    = ({| app.body := app.FailureBody false
            "zero-size array to reduction operation minimum which has no identity";
          app.status := 500 |}, rs0) /\
  exists r rs',
    monte_carlo_simulation sqrt6 (init 0 3 (1 # 2) 20000)
      (5, 1) (1 # 2, 1 # 2) (20000, 20000) 1 rs0 = (inr r, rs').
Proof.
  destruct (monte_carlo_simulation_failures sqrt6 (init 0 3 (1 # 2) 20000)
              (5, 1) (1 # 2, 1 # 2) (20000, 20000) rs0) as (_ & Happ & Hok).
  split.
  - apply Happ. vm_compute. reflexivity.
  - apply Hok. lia.
Defined.

(** C5 as stated fails: a simulation whose threat-event-frequency range is
    inverted, (5, 1), does not fail.  With three iterations it returns a
    result, and the endpoint answers 200. *)
Lemma inverted_range_is_accepted :
  (exists r rs',
     monte_carlo_simulation sqrt6 (init 0 3 (1 # 2) 20000)
       (5, 1) (1 # 2, 1 # 2) (20000, 20000) 3 rs0 = (inr r, rs') /\
     min_ale r == 2333333 # 100 /\ max_ale r == 50000) /\
  app.status
    (fst (app.run_monte_carlo sqrt6
            (<["tef_min" := 5]> (<["tef_max" := 1]> (<["iterations" := 3]> ∅)))
            rs0)) = 200%Z.
Proof.
  split.
  - eexists _, _. split; [vm_compute; reflexivity |].
    split; vm_compute; reflexivity.
  - vm_compute. reflexivity.
Qed.

(** C10.  The classification is total: a negative ALE is Low/green/P4, and
    [calculate] answers so for inputs whose product is negative, which it
    does not reject.  In a simulation the low count is the number of
    outcomes below 10,000, so it includes every negative outcome, and the
    other three buckets hold none of them; a simulation over the negative
    frequency range (-2, -1) puts all its outcomes in the low bucket. *)
Theorem negative_ale_is_low :
  (forall self ale, ale < 0 -> calculate_risk_level self ale = Low) /\
  (forall self,
     threat_event_frequency self * vulnerability self * loss_magnitude self < 0 ->
     risk_level (calculate self) = "Low"%string /\
     risk_color (calculate self) = "green"%string /\
     risk_priority (calculate self) = "P4"%string) /\
  (forall sqrt self tef_range vuln_range loss_range N rs r rs' xs,
     ale_samples tef_range vuln_range loss_range N rs = (inr xs, rs') ->
     monte_carlo_simulation sqrt self tef_range vuln_range loss_range N rs
       = (inr r, rs') ->
     low (risk_distribution r) = count (fun x => Qltb x 10000) xs /\
     (count (fun x => Qltb x 0) xs <= low (risk_distribution r))%Z /\
     (medium (risk_distribution r) + high (risk_distribution r)
      + critical (risk_distribution r)
      <= Z.of_nat (length xs) - count (fun x => Qltb x 0) xs)%Z) /\
  (exists r rs',
     monte_carlo_simulation sqrt6 (init 1000 (-3 # 2) (1 # 2) 20000)
       (-2, -1) (1 # 2, 1 # 2) (20000, 20000) 2 rs0 = (inr r, rs') /\
     risk_distribution r
       = {| low := 2; medium := 0; high := 0; critical := 0 |}).
Proof.
  assert (Hlow : forall self ale, ale < 0 -> calculate_risk_level self ale = Low).
  { intros self ale H. unfold calculate_risk_level.
    assert (E : Qltb ale 10000 = true) by (apply Qltb_true; lra).
    rewrite E. reflexivity. }
  split; [exact Hlow |]. split; [| split].
  - intros self H.
    assert (E : calculate_risk_level self (calculate_annual_loss_expectancy self)
                = Low) by (apply Hlow; exact H).
    unfold calculate. cbn [risk_level risk_color risk_priority].
    rewrite E. repeat split.
  - intros sqrt self tef_range vuln_range loss_range N rs r rs' xs Hs Hr.
    rewrite monte_carlo_simulation_eq, Hs in Hr.
    destruct xs as [| x xs]; [discriminate |].
    rewrite summarize_cons in Hr. injection Hr as <-.
    cbn [risk_distribution summary low medium high critical].
    assert (Hneg : (count (fun y => Qltb y 0) (x :: xs)
                    <= count (fun y => Qltb y 10000) (x :: xs))%Z).
    { apply count_le. intros y Hy. apply Qltb_true in Hy. apply Qltb_true. lra. }
    pose proof (count_partition (x :: xs)) as Hp.
    repeat split; [exact Hneg | lia].
  - eexists _, _. split; vm_compute; reflexivity.
Qed.

Lemma negative_ale_is_low_witness :
  calculate_risk_level (init 1000 (-1) (1 # 2) 20000) (-10000) = Low /\
  risk_level (calculate (init 1000 (-1) (1 # 2) 20000)) = "Low"%string.
Proof.
  destruct negative_ale_is_low as (H1 & H2 & _).
  split.
  - apply H1. vm_compute. reflexivity.
  - apply H2. vm_compute. reflexivity.
Defined.

End Buckets.

(** ** The simulator: order statistics *)

Section Order.
Import FAIRCalculator.

#[global] Instance Qle_total : Total Qle.
Proof.
  intros x y. destruct (Qlt_le_dec x y) as [H | H]; [left | right]; lra.
Qed.

#[global] Instance Qle_transitive : Transitive Qle := Qle_trans.


Lemma sort_perm a : Permutation (np.sort a) a.
Proof. apply merge_sort_Permutation. Qed.

Lemma length_sort a : length (np.sort a) = length a.
Proof. apply Permutation_length, sort_perm. Qed.













Lemma fold_min_le_acc xs x : fold_left Qmin xs x <= x.
Proof.
  revert x. induction xs as [| y xs IH]; intros x; simpl; [apply Qle_refl |].
  eapply Qle_trans; [apply IH | apply Q.le_min_l].
Qed.

Lemma fold_min_le xs x y : In y (x :: xs) -> fold_left Qmin xs x <= y.
Proof.
  revert x. induction xs as [| z xs IH]; intros x [<- | Hy]; simpl.
  - apply Qle_refl.
  - destruct Hy.
  - eapply Qle_trans; [apply fold_min_le_acc | apply Q.le_min_l].
  - destruct Hy as [<- | Hy].
    + eapply Qle_trans; [apply fold_min_le_acc | apply Q.le_min_r].
    + apply IH. right. assumption.
Qed.

Lemma fold_max_ge_acc xs x : x <= fold_left Qmax xs x.
Proof.
  revert x. induction xs as [| y xs IH]; intros x; simpl; [apply Qle_refl |].
  eapply Qle_trans; [apply Q.le_max_l | apply IH].
Qed.

Lemma fold_max_ge xs x y : In y (x :: xs) -> y <= fold_left Qmax xs x.
Proof.
  revert x. induction xs as [| z xs IH]; intros x [<- | Hy]; simpl.
  - apply Qle_refl.
  - destruct Hy.
  - eapply Qle_trans; [apply Q.le_max_l | apply fold_max_ge_acc].
  - destruct Hy as [<- | Hy].
    + eapply Qle_trans; [apply Q.le_max_r | apply fold_max_ge_acc].
    + apply IH. right. assumption.
Qed.


End Order.

Section Percentiles.
Import FAIRCalculator.



End Percentiles.

(** ** The simulator on constant outcome vectors *)

Section Constant.
Import FAIRCalculator.

Lemma random_uniform_degenerate c size rs xs rs' :
  np.random_uniform c c size rs = (inr xs, rs') -> constant c xs.
Proof.
  unfold np.random_uniform. destruct (size <? 0)%Z; [discriminate |].
  intros [= <- _]. apply List.Forall_forall. intros x Hx.
  apply in_map_iff in Hx as (i & <- & _). ring.
Qed.

Lemma multiply_constant a b xs ys :
  constant a xs -> constant b ys -> constant (a * b) (np.multiply xs ys).
Proof.
  unfold np.multiply. intros Hx. revert ys.
  induction Hx as [| x xs Hx _ IH]; intros ys Hy; [constructor |].
  destruct Hy as [| y ys Hy Hys]; [constructor |].
  simpl. constructor; [rewrite Hx, Hy; reflexivity | apply IH; assumption].
Qed.

Lemma sum_constant c xs : constant c xs -> np.sum xs == c * np.size xs.
Proof.
  unfold np.sum, np.size. induction 1 as [| x xs Hx _ IH].
  - simpl. ring.
  - cbn [fold_right length]. rewrite Nat2Z.inj_succ. unfold Z.succ.
    rewrite inject_Z_plus, IH, Hx. change (inject_Z 1) with 1. ring.
Qed.

Lemma size_pos xs : xs <> [] -> 0 < np.size xs.
Proof.
  intros H. destruct xs as [| x xs]; [contradiction |].
  unfold np.size. change 0 with (inject_Z 0). rewrite <- Zlt_Qlt.
  simpl length. lia.
Qed.

Lemma mean_constant c xs : xs <> [] -> constant c xs -> np.mean xs == c.
Proof.
  intros Hne Hc. unfold np.mean. rewrite (sum_constant c xs Hc).
  pose proof (size_pos xs Hne). field. lra.
Qed.

Lemma mean_zero xs : constant 0 xs -> np.mean xs == 0.
Proof.
  intros Hc. unfold np.mean. rewrite (sum_constant 0 xs Hc).
  unfold Qdiv. ring.
Qed.

Lemma sort_constant c xs : constant c xs -> constant c (np.sort xs).
Proof.
  intros H. rewrite List.Forall_forall in *. intros x Hx.
  apply H. apply (Permutation_in _ (sort_perm xs)). assumption.
Qed.

Lemma nth_constant c (s : list Q) i :
  constant c s -> (i < length s)%nat -> nth i s 0 == c.
Proof.
  intros H Hi. rewrite List.Forall_forall in H. apply H, nth_In. assumption.
Qed.

Lemma median_constant c xs : xs <> [] -> constant c xs -> np.median xs == c.
Proof.
  intros Hne Hc. unfold np.median.
  pose proof (sort_constant c xs Hc) as Hs.
  assert (Hn : (0 < length (np.sort xs))%nat).
  { rewrite length_sort. destruct xs; [contradiction | simpl; lia]. }
  assert (Hh : (length (np.sort xs) / 2 < length (np.sort xs))%nat)
    by (apply Nat.div_lt; lia).
  destruct (Nat.even _).
  - rewrite !(nth_constant c) by (assumption || lia). field.
  - apply nth_constant; assumption.
Qed.

Lemma fold_min_constant c xs x :
  x == c -> constant c xs -> fold_left Qmin xs x == c.
Proof.
  intros Hx Hc. revert x Hx.
  induction Hc as [| y xs Hy _ IH]; intros x Hx; simpl; [assumption |].
  apply IH. destruct (Q.min_spec x y) as [[_ E] | [_ E]]; rewrite E; assumption.
Qed.

Lemma fold_max_constant c xs x :
  x == c -> constant c xs -> fold_left Qmax xs x == c.
Proof.
  intros Hx Hc. revert x Hx.
  induction Hc as [| y xs Hy _ IH]; intros x Hx; simpl; [assumption |].
  apply IH. destruct (Q.max_spec x y) as [[_ E] | [_ E]]; rewrite E; assumption.
Qed.

(** The standard deviation of a constant vector is the square root of 0. *)
Lemma std_constant sqrt c xs :
  (forall x, x == 0 -> sqrt x == 0) ->
  xs <> [] -> constant c xs -> np.std sqrt xs == 0.
Proof.
  intros Hsqrt Hne Hc. unfold np.std. apply Hsqrt. apply mean_zero.
  pose proof (mean_constant c xs Hne Hc) as Hm.
  apply List.Forall_forall. intros d Hd.
  apply in_map_iff in Hd as (x & <- & Hx).
  rewrite List.Forall_forall in Hc. specialize (Hc x Hx).
  assert (E : x - np.mean xs == 0) by (rewrite Hc, Hm; ring).
  rewrite E. reflexivity.
Qed.

Lemma count_constant (p : Q -> bool) c xs :
  Proper (Qeq ==> eq) p -> constant c xs ->
  count p xs = if p c then Z.of_nat (length xs) else 0%Z.
Proof.
  intros Hp Hc. unfold count. induction Hc as [| x xs Hx _ IH].
  - destruct (p c); reflexivity.
  - cbn [List.map np.sum_bool length]. rewrite IH, (Hp x c Hx).
    destruct (p c); lia.
Qed.

End Constant.

Section Degenerate.
Import FAIRCalculator.

Lemma sqrt6_zero x : x == 0 -> sqrt6 x == 0.
Proof.
  intros H. unfold sqrt6.
  assert (E : x * inject_Z (10 ^ 12) == 0) by (rewrite H; ring).
  rewrite (Qfloor_comp _ _ E). reflexivity.
Qed.

Lemma ale_samples_degenerate a b c iterations rs xs rs' :
  ale_samples (a, a) (b, b) (c, c) iterations rs = (inr xs, rs') ->
  constant (a * b * c) xs.
Proof.
  unfold ale_samples, np.bind, np.ret. cbn [fst snd].
  destruct (np.random_uniform a a iterations rs) as [[e | tef] rs1] eqn:E1;
    [discriminate |].
  destruct (np.random_uniform b b iterations rs1) as [[e | vuln] rs2] eqn:E2;
    [discriminate |].
  destruct (np.random_uniform c c iterations rs2) as [[e | loss] rs3] eqn:E3;
    [discriminate |].
  intros [= <- _].
  apply multiply_constant; [apply multiply_constant |];
    eapply random_uniform_degenerate; eassumption.
Qed.

(** C9.  A simulation over the degenerate ranges (5, 5), (0.5, 0.5) and
    (20000, 20000) with [N >= 1] iterations returns; every outcome equals
    50,000; mean, median, minimum and maximum are 50,000; the standard
    deviation is 0 (the square root maps 0 to 0); and all [N] outcomes are
    counted in the high bucket. *)
Theorem degenerate_simulation sqrt self (N : Z) rs :
  (forall x, x == 0 -> sqrt x == 0) ->
  (1 <= N)%Z ->
  exists r rs' xs,
    monte_carlo_simulation sqrt self (5, 5) (1 # 2, 1 # 2) (20000, 20000) N rs
      = (inr r, rs') /\
    ale_samples (5, 5) (1 # 2, 1 # 2) (20000, 20000) N rs = (inr xs, rs') /\
    Z.of_nat (length xs) = N /\
    constant 50000 xs /\
    mean_ale r == 50000 /\ median_ale r == 50000 /\
    min_ale r == 50000 /\ max_ale r == 50000 /\
    std_dev r == 0 /\
    risk_distribution r = {| low := 0; medium := 0; high := N; critical := 0 |}.
Proof.
  intros Hsqrt HN.
  destruct (monte_carlo_simulation_ok sqrt self (5, 5) (1 # 2, 1 # 2)
              (20000, 20000) N rs HN) as (x & xs & Hs & Hl & Hr).
  pose proof (ale_samples_degenerate _ _ _ _ _ _ _ Hs) as Hc.
  assert (Hc' : constant 50000 (x :: xs)).
  { eapply List.Forall_impl; [| exact Hc]. intros y Hy. simpl in Hy.
    rewrite Hy. reflexivity. }
  assert (Hne : x :: xs <> []) by discriminate.
  assert (HN' : Z.of_nat (length (x :: xs)) = N) by lia.
  eexists _, _, (x :: xs).
  split; [exact Hr |]. split; [exact Hs |]. split; [exact HN' |].
  split; [exact Hc' |].
  cbn [mean_ale median_ale min_ale max_ale std_dev risk_distribution summary].
  assert (Hx : x == 50000) by (inversion Hc'; assumption).
  assert (Hxs : constant 50000 xs) by (inversion Hc'; assumption).
  repeat split.
  - rewrite (mean_constant _ _ Hne Hc'). reflexivity.
  - rewrite (median_constant _ _ Hne Hc'). reflexivity.
  - rewrite (fold_min_constant _ _ _ Hx Hxs). reflexivity.
  - rewrite (fold_max_constant _ _ _ Hx Hxs). reflexivity.
  - rewrite (std_constant sqrt _ _ Hsqrt Hne Hc'). reflexivity.
  - rewrite !(count_constant _ 50000 (x :: xs)); try assumption.
    + rewrite HN'. reflexivity.
    + intros y z Hyz. unfold Qgeb. rewrite Hyz. reflexivity.
    + intros y z Hyz. unfold Qgeb. rewrite Hyz. reflexivity.
    + intros y z Hyz. unfold Qgeb. rewrite Hyz. reflexivity.
    + intros y z Hyz. rewrite Hyz. reflexivity.
Qed.

Lemma degenerate_simulation_witness :
  exists r rs' xs,
    monte_carlo_simulation sqrt6 (init 1000000 5 (1 # 2) 20000)
      (5, 5) (1 # 2, 1 # 2) (20000, 20000) 4 rs0 = (inr r, rs') /\
    ale_samples (5, 5) (1 # 2, 1 # 2) (20000, 20000) 4 rs0 = (inr xs, rs') /\
    Z.of_nat (length xs) = 4%Z /\
    constant 50000 xs /\
    mean_ale r == 50000 /\ median_ale r == 50000 /\
    min_ale r == 50000 /\ max_ale r == 50000 /\
    std_dev r == 0 /\
    risk_distribution r = {| low := 0; medium := 0; high := 4; critical := 0 |}.
Proof.
  apply (degenerate_simulation sqrt6 (init 1000000 5 (1 # 2) 20000) 4 rs0).
  - exact sqrt6_zero.
  - lia.
Defined.

End Degenerate.

(** ** The simulator and the generator *)

Section Generator.
Import FAIRCalculator.

(** The outcome vector is a function of the next [3 * iterations] unit
    draws of the generator. *)
Lemma ale_samples_draws tef_range vuln_range loss_range iterations rs1 rs2 :
  (forall i, (i < 3 * Z.to_nat iterations)%nat ->
     np.stream rs1 (np.pos rs1 + i) = np.stream rs2 (np.pos rs2 + i)) ->
  fst (ale_samples tef_range vuln_range loss_range iterations rs1)
    = fst (ale_samples tef_range vuln_range loss_range iterations rs2).
Proof.
  intros H. destruct (Z.ltb_spec iterations 0) as [Hneg | Hpos].
  - rewrite !ale_samples_negative by assumption. reflexivity.
  - unfold ale_samples, np.bind, np.ret.
    rewrite !random_uniform_ok by assumption. cbn [fst]. do 2 f_equal;
      [f_equal |];
      apply map_ext_in; intros i Hi; apply in_seq in Hi;
      unfold np.advance; cbn [np.stream np.pos];
      rewrite <- ?Nat.add_assoc; rewrite H by lia; reflexivity.
Qed.

(** C7, as amended.  The simulation takes no seed: it reads NumPy's
    process-wide generator.  Its outcome (result or error) is a function of
    its arguments and of the next [3 * N] unit draws of the generator, so
    two runs on the same arguments from generator states that yield the same
    draws (the global generator re-seeded alike) return identical results;
    and a run with [N >= 0] iterations leaves the generator [3 * N] draws
    further on. *)
Theorem monte_carlo_simulation_repeatable sqrt self tef_range vuln_range
    loss_range (N : Z) rs1 rs2 :
  (forall i, (i < 3 * Z.to_nat N)%nat ->
     np.stream rs1 (np.pos rs1 + i) = np.stream rs2 (np.pos rs2 + i)) ->
  fst (monte_carlo_simulation sqrt self tef_range vuln_range loss_range N rs1)
    = fst (monte_carlo_simulation sqrt self tef_range vuln_range loss_range N rs2)
  /\
  ((0 <= N)%Z ->
   snd (monte_carlo_simulation sqrt self tef_range vuln_range loss_range N rs1)
     = np.advance (3 * Z.to_nat N) rs1).
Proof.
  intros H. split.
  - pose proof (ale_samples_draws tef_range vuln_range loss_range N rs1 rs2 H)
      as Hs.
    rewrite !monte_carlo_simulation_eq.
    destruct (ale_samples tef_range vuln_range loss_range N rs1)
      as [[e1 | xs1] rs1'];
      destruct (ale_samples tef_range vuln_range loss_range N rs2)
        as [[e2 | xs2] rs2'];
      cbn [fst] in Hs |- *; congruence.
  - intros HN. rewrite monte_carlo_simulation_eq.
    destruct (ale_samples_ok tef_range vuln_range loss_range N rs1 HN)
      as (xs & Hs & _).
    rewrite Hs. reflexivity.
Qed.

Lemma monte_carlo_simulation_repeatable_witness :
  fst (monte_carlo_simulation sqrt6 (init 1000000 6 (3 # 10) 75000)
         (1, 10) (1 # 10, 9 # 10) (10000, 100000) 2 rs0)
    = fst (monte_carlo_simulation sqrt6 (init 1000000 6 (3 # 10) 75000)
             (1, 10) (1 # 10, 9 # 10) (10000, 100000) 2
             {| np.stream := fun i => harmonic_stream (i - 4); np.pos := 4 |}).
Proof.
  apply (monte_carlo_simulation_repeatable sqrt6
           (init 1000000 6 (3 # 10) 75000)
           (1, 10) (1 # 10, 9 # 10) (10000, 100000) 2 rs0
           {| np.stream := fun i => harmonic_stream (i - 4); np.pos := 4 |}).
  intros i _. cbn [np.stream np.pos rs0].
  replace (4 + i - 4)%nat with (0 + i)%nat by lia. reflexivity.
Defined.

(** C7 as stated fails: the simulation has no seed argument, and two
    successive runs on the same arguments read different draws of the
    process-wide generator and return different results. *)
Lemma successive_runs_differ :
  exists r1 rs1 r2 rs2,
    monte_carlo_simulation sqrt6 (init 1000000 6 (3 # 10) 75000)
      (1, 10) (1 # 10, 9 # 10) (10000, 100000) 2 rs0 = (inr r1, rs1) /\
    monte_carlo_simulation sqrt6 (init 1000000 6 (3 # 10) 75000)
      (1, 10) (1 # 10, 9 # 10) (10000, 100000) 2 rs1 = (inr r2, rs2) /\
    ~ mean_ale r1 == mean_ale r2.
Proof.
  eexists _, _, _, _.
  split; [vm_compute; reflexivity |].
  split; [vm_compute; reflexivity |].
  vm_compute. discriminate.
Qed.

End Generator.

(** * Further properties of the evaluator *)

Section EvaluatorMore.
Import FAIRCalculator.

Lemma round_inject_Z (z : Z) n : round (inject_Z z) n == inject_Z z.
Proof.
  pose proof (pow10_pos n) as Hp. unfold round.
  assert (E : round_half_even (inject_Z z * pow10 n) = (z * 10 ^ Z.of_nat n)%Z).
  { unfold pow10. rewrite <- inject_Z_mult. unfold round_half_even.
    rewrite Qfloor_Z.
    assert (H0 : inject_Z (z * 10 ^ Z.of_nat n) - inject_Z (z * 10 ^ Z.of_nat n)
                 == 0) by ring.
    rewrite H0. reflexivity. }
  rewrite E, inject_Z_mult. fold (pow10 n). field. lra.
Qed.



(** The level grows with the ALE. *)
Lemma risk_level_rank_mono self ale1 ale2 :
  ale1 <= ale2 ->
  (level_rank (level (calculate_risk_level self ale1))
   <= level_rank (level (calculate_risk_level self ale2)))%nat.
Proof.
  intros H. unfold calculate_risk_level.
  cases_Qltb; cbn; try lia; exfalso; lra.
Qed.

(** X1.  [calculate_risk_level] answers one of four fixed triples, so the
    colour and the priority always match the level, and it is monotone: a
    larger ALE never gets a lower level. *)
Theorem calculate_risk_level_monotone self ale1 ale2 :
  (calculate_risk_level self ale1 = Low \/
   calculate_risk_level self ale1 = Medium \/
   calculate_risk_level self ale1 = High \/
   calculate_risk_level self ale1 = Critical) /\
  (ale1 <= ale2 ->
   (level_rank (level (calculate_risk_level self ale1))
    <= level_rank (level (calculate_risk_level self ale2)))%nat).
Proof.
  split; [| apply risk_level_rank_mono].
  unfold calculate_risk_level. cases_Qltb; auto.
Qed.

Lemma calculate_risk_level_monotone_witness :
  (level_rank (level (calculate_risk_level (init 1 1 1 1) 49000))
   <= level_rank (level (calculate_risk_level (init 1 1 1 1) 51000)))%nat.
Proof.
  apply (calculate_risk_level_monotone (init 1 1 1 1) 49000 51000).
  vm_compute. discriminate.
Defined.

Lemma Qmult_le_mono a b c d :
  0 <= a -> a <= b -> 0 <= c -> c <= d -> a * c <= b * d.
Proof.
  intros Ha Hab Hc Hcd.
  apply Qle_trans with (b * c).
  - apply Qmult_le_compat_r; assumption.
  - rewrite !(Qmult_comm b). apply Qmult_le_compat_r; [assumption | lra].
Qed.

(** X2.  For non-negative inputs the evaluator is monotone: raising the
    threat event frequency, the vulnerability or the loss magnitude never
    lowers the returned LEF, the returned ALE or the risk level. *)
Theorem calculate_monotone self1 self2 :
  0 <= threat_event_frequency self1 ->
  threat_event_frequency self1 <= threat_event_frequency self2 ->
  0 <= vulnerability self1 -> vulnerability self1 <= vulnerability self2 ->
  0 <= loss_magnitude self1 -> loss_magnitude self1 <= loss_magnitude self2 ->
  loss_event_frequency (calculate self1)
    <= loss_event_frequency (calculate self2) /\
  annual_loss_expectancy (calculate self1)
    <= annual_loss_expectancy (calculate self2) /\
  (level_rank (risk_level (calculate self1))
   <= level_rank (risk_level (calculate self2)))%nat.
Proof.
  intros Ht0 Ht Hv0 Hv Hl0 Hl.
  assert (Hlef : calculate_loss_event_frequency self1
                 <= calculate_loss_event_frequency self2)
    by (apply Qmult_le_mono; assumption).
  assert (Hlef0 : 0 <= calculate_loss_event_frequency self1)
    by (apply Qmult_le_0_compat; assumption).
  assert (Hale : calculate_annual_loss_expectancy self1
                 <= calculate_annual_loss_expectancy self2)
    by (apply Qmult_le_mono; assumption).
  split; [apply round_mono; exact Hlef |].
  split; [apply round_mono; exact Hale |].
  unfold calculate. cbn [risk_level]. unfold calculate_risk_level.
  cases_Qltb; cbn; try lia; exfalso; lra.
Qed.

Lemma calculate_monotone_witness :
  annual_loss_expectancy (calculate (init 1000000 6 (3 # 10) 75000))
    <= annual_loss_expectancy (calculate (init 1000000 8 (3 # 10) 75000)) /\
  (level_rank (risk_level (calculate (init 1000000 6 (3 # 10) 75000)))
   <= level_rank (risk_level (calculate (init 1000000 8 (3 # 10) 75000))))%nat.
Proof.
  apply (calculate_monotone (init 1000000 6 (3 # 10) 75000)
                            (init 1000000 8 (3 # 10) 75000));
    vm_compute; discriminate.
Defined.



End EvaluatorMore.

Section Label.
Import FAIRCalculator.

(** Rounding does not cross an integer. *)
Lemma round_ge_integer (z : Z) x n : inject_Z z <= x -> inject_Z z <= round x n.
Proof.
  intros H. rewrite <- (round_inject_Z z n). apply round_mono. exact H.
Qed.

Lemma round_le_integer (z : Z) x n : x <= inject_Z z -> round x n <= inject_Z z.
Proof.
  intros H. rewrite <- (round_inject_Z z n). apply round_mono. exact H.
Qed.

(** X4.  The level of the returned record is computed from the unrounded
    ALE while the record shows the ALE rounded to cents.  The level is never
    above the level of the shown ALE, and the two differ only when the
    unrounded ALE lies within half a cent below a threshold; the shown ALE
    is then exactly that threshold and the level is the one below it. *)
Theorem calculate_level_of_shown_ale self :
  (level_rank (risk_level (calculate self))
   <= level_rank
        (level (calculate_risk_level self
                  (annual_loss_expectancy (calculate self)))))%nat /\
  (risk_level (calculate self)
     <> level (calculate_risk_level self
                 (annual_loss_expectancy (calculate self))) ->
   exists T,
     (T = 10000 \/ T = 50000 \/ T = 200000) /\
     T - (5 # 1000) <= calculate_annual_loss_expectancy self /\
     calculate_annual_loss_expectancy self < T /\
     annual_loss_expectancy (calculate self) == T).
Proof.
  set (a := calculate_annual_loss_expectancy self).
  assert (Hb : annual_loss_expectancy (calculate self) = round a 2)
    by reflexivity.
  assert (Hl : risk_level (calculate self) = level (calculate_risk_level self a))
    by reflexivity.
  rewrite Hb, Hl. clear Hb Hl.
  destruct (round_error a 2) as [He1 He2].
  assert (Hc : (1 # 2) / pow10 2 == 5 # 1000) by reflexivity.
  rewrite Hc in He1, He2. clear Hc.
  pose proof (round_ge_integer 10000 a 2) as G1.
  pose proof (round_ge_integer 50000 a 2) as G2.
  pose proof (round_ge_integer 200000 a 2) as G3.
  pose proof (round_le_integer 10000 a 2) as L1.
  pose proof (round_le_integer 50000 a 2) as L2.
  pose proof (round_le_integer 200000 a 2) as L3.
  change (inject_Z 10000) with 10000 in *.
  change (inject_Z 50000) with 50000 in *.
  change (inject_Z 200000) with 200000 in *.
  generalize dependent (round a 2). intros b He1 He2 G1 G2 G3 L1 L2 L3.
  split.
  - unfold calculate_risk_level. cases_Qltb; cbn; try lia; exfalso;
      first [ specialize (G1 ltac:(assumption)); lra
            | specialize (G2 ltac:(assumption)); lra
            | specialize (G3 ltac:(assumption)); lra ].
  - unfold calculate_risk_level. cases_Qltb; cbn; intros Hne;
      try congruence;
      first
        [ exfalso; specialize (G1 ltac:(assumption)); lra
        | exfalso; specialize (G2 ltac:(assumption)); lra
        | exfalso; specialize (G3 ltac:(assumption)); lra
        | exists 10000; specialize (L1 ltac:(lra));
          split; [auto |]; repeat split; try lra; apply Qle_antisym; lra
        | exists 50000; specialize (L2 ltac:(lra));
          split; [auto |]; repeat split; try lra; apply Qle_antisym; lra
        | exists 200000; specialize (L3 ltac:(lra));
          split; [auto |]; repeat split; try lra; apply Qle_antisym; lra ].
Qed.

Lemma calculate_level_of_shown_ale_witness :
  exists T,
    (T = 10000 \/ T = 50000 \/ T = 200000) /\
    T - (5 # 1000)
      <= calculate_annual_loss_expectancy (init 1 1 1 (9999996 # 1000)) /\
    calculate_annual_loss_expectancy (init 1 1 1 (9999996 # 1000)) < T /\
    annual_loss_expectancy (calculate (init 1 1 1 (9999996 # 1000))) == T.
Proof.
  apply (calculate_level_of_shown_ale (init 1 1 1 (9999996 # 1000))).
  vm_compute. discriminate.
Defined.

End Label.

(** * Further properties of the endpoints *)

Section Endpoints.
Import FAIRCalculator.


End Endpoints.

(** * Further properties of the simulator *)

Section Statistics.
Import FAIRCalculator.

(** Every entry of [a] lies between [lo] and [hi]. *)
Local Abbreviation within lo hi a := (Forall (fun y => lo <= y /\ y <= hi) a).

(** A non-empty array lies between its minimum and its maximum. *)
Lemma within_min_max x xs :
  within (fold_left Qmin xs x) (fold_left Qmax xs x) (x :: xs).
Proof.
  apply List.Forall_forall. intros y Hy.
  split; [apply fold_min_le | apply fold_max_ge]; assumption.
Qed.



End Statistics.

Section Interval.
Import FAIRCalculator.





End Interval.

Section Counting.
Import FAIRCalculator.

Lemma count_all (p : Q -> bool) xs :
  Forall (fun x => p x = true) xs -> count p xs = Z.of_nat (length xs).
Proof.
  unfold count. induction 1 as [| x xs Hx _ IH]; [reflexivity |].
  cbn [List.map np.sum_bool length]. rewrite Hx, IH. lia.
Qed.

Lemma count_none (p : Q -> bool) xs :
  Forall (fun x => p x = false) xs -> count p xs = 0%Z.
Proof.
  unfold count. induction 1 as [| x xs Hx _ IH]; [reflexivity |].
  cbn [List.map np.sum_bool]. rewrite Hx, IH. reflexivity.
Qed.

End Counting.

Section Extremes.
Import FAIRCalculator.

Lemma fold_min_In xs x : In (fold_left Qmin xs x) (x :: xs).
Proof.
  revert x. induction xs as [| y xs IH]; intros x; [left; reflexivity |].
  cbn [fold_left]. destruct (IH (Qmin x y)) as [H | H].
  - rewrite <- H. unfold Qmin, GenericMinMax.gmin.
    destruct (x ?= y); [left | left | right; left]; reflexivity.
  - right. right. exact H.
Qed.

Lemma fold_max_In xs x : In (fold_left Qmax xs x) (x :: xs).
Proof.
  revert x. induction xs as [| y xs IH]; intros x; [left; reflexivity |].
  cbn [fold_left]. destruct (IH (Qmax x y)) as [H | H].
  - rewrite <- H. unfold Qmax, GenericMinMax.gmax.
    destruct (x ?= y); [left | right; left | left]; reflexivity.
  - right. right. exact H.
Qed.

Lemma count_pos (p : Q -> bool) xs y :
  In y xs -> p y = true -> (1 <= count p xs)%Z.
Proof.
  unfold count. induction xs as [| x xs IH]; intros Hy Hp; [destruct Hy |].
  cbn [List.map np.sum_bool].
  assert (H0 : (0 <= np.sum_bool (List.map p xs))%Z).
  { clear. induction xs as [| z xs IH]; simpl; [lia |]. destruct (p z); lia. }
  destruct Hy as [<- | Hy].
  - rewrite Hp. lia.
  - specialize (IH Hy Hp). destruct (p x); lia.
Qed.

(** X13.  The risk distribution agrees with the reported extremes.  With
    [N >= 1] iterations: a reported maximum below 200,000 means no critical
    outcome and one above 200,000 means at least one; a reported minimum
    below 10,000 means at least one low outcome and one above 10,000 means
    none; and a reported maximum below 10,000 means that all [N] outcomes
    are low. *)
Theorem risk_distribution_matches_extremes sqrt self tef_range vuln_range
    loss_range (N : Z) rs :
  (1 <= N)%Z ->
  exists r rs',
    monte_carlo_simulation sqrt self tef_range vuln_range loss_range N rs
      = (inr r, rs') /\
    (max_ale r < 200000 -> critical (risk_distribution r) = 0%Z) /\
    (200000 < max_ale r -> (1 <= critical (risk_distribution r))%Z) /\
    (min_ale r < 10000 -> (1 <= low (risk_distribution r))%Z) /\
    (10000 < min_ale r -> low (risk_distribution r) = 0%Z) /\
    (max_ale r < 10000 -> low (risk_distribution r) = N).
Proof.
  intros H.
  destruct (monte_carlo_simulation_ok sqrt self tef_range vuln_range
              loss_range N rs H) as (x & xs & _ & Hlen & Hr).
  assert (HN : Z.of_nat (length (x :: xs)) = N) by lia.
  eexists _, _. split; [exact Hr |].
  cbn [summary min_ale max_ale risk_distribution low critical].
  set (mn := fold_left Qmin xs x). set (mx := fold_left Qmax xs x).
  pose proof (within_min_max x xs) as Hw. fold mn mx in Hw.
  pose proof (fold_min_In xs x) as Imn. pose proof (fold_max_In xs x) as Imx.
  fold mn in Imn. fold mx in Imx.
  pose proof (round_ge_integer 200000 mx 2) as G.
  pose proof (round_le_integer 200000 mx 2) as L.
  pose proof (round_ge_integer 10000 mn 2) as Gn.
  pose proof (round_le_integer 10000 mn 2) as Ln.
  pose proof (round_ge_integer 10000 mx 2) as Gx.
  change (inject_Z 200000) with 200000 in *.
  change (inject_Z 10000) with 10000 in *.
  repeat split; intros Hb.
  - assert (Hmx : mx < 200000).
    { apply Qnot_le_lt. intros C. specialize (G C). lra. }
    apply count_none. eapply List.Forall_impl; [| exact Hw]. cbn.
    intros y [_ Hy]. rewrite Qgeb_negb_Qltb.
    assert (E : Qltb y 200000 = true) by (apply Qltb_true; lra).
    rewrite E. reflexivity.
  - assert (Hmx : 200000 < mx).
    { apply Qnot_le_lt. intros C. specialize (L C). lra. }
    apply (count_pos _ _ mx Imx). apply Qgeb_true. lra.
  - assert (Hmn : mn < 10000).
    { apply Qnot_le_lt. intros C. specialize (Gn C). lra. }
    apply (count_pos _ _ mn Imn). apply Qltb_true. exact Hmn.
  - assert (Hmn : 10000 < mn).
    { apply Qnot_le_lt. intros C. specialize (Ln C). lra. }
    apply count_none. eapply List.Forall_impl; [| exact Hw]. cbn.
    intros y [Hy _]. apply Qltb_false. lra.
  - assert (Hmx : mx < 10000).
    { apply Qnot_le_lt. intros C. specialize (Gx C). lra. }
    rewrite count_all, HN; [reflexivity |].
    eapply List.Forall_impl; [| exact Hw]. cbn. intros y [_ Hy].
    apply Qltb_true. lra.
Qed.

Lemma risk_distribution_matches_extremes_witness :
  exists r rs',
    monte_carlo_simulation sqrt6 (init 1000000 6 (3 # 10) 75000)
      (1, 10) (1 # 10, 9 # 10) (10000, 100000) 6 rs0 = (inr r, rs') /\
    (max_ale r < 200000 -> critical (risk_distribution r) = 0%Z) /\
    (200000 < max_ale r -> (1 <= critical (risk_distribution r))%Z) /\
    (min_ale r < 10000 -> (1 <= low (risk_distribution r))%Z) /\
    (10000 < min_ale r -> low (risk_distribution r) = 0%Z) /\
    (max_ale r < 10000 -> low (risk_distribution r) = 6%Z).
Proof.
  apply (risk_distribution_matches_extremes sqrt6
           (init 1000000 6 (3 # 10) 75000)
           (1, 10) (1 # 10, 9 # 10) (10000, 100000) 6 rs0).
  lia.
Defined.

End Extremes.

(** * The endpoints on requests whose fields need not be numbers *)

Section Requests.
Import FAIRCalculator.
Variable json : Type.
Variable float_ : json -> string + Q.

(** A field that is present and does not convert makes its read fail,
    whatever the default. *)
Lemma get_float_fails (data : gmap string json) key dflt v e :
  data !! key = Some v -> float_ v = inl e ->
  request.get_float json float_ data key dflt = inl e.
Proof. intros Hk Hv. unfold request.get_float. rewrite Hk. exact Hv. Qed.

Lemma get_float_failed (data : gmap string json) key dflt e :
  request.get_float json float_ data key dflt = inl e ->
  exists v, data !! key = Some v /\ float_ v = inl e.
Proof.
  unfold request.get_float. destruct (data !! key) as [v |]; [| discriminate].
  intros H. exists v. split; [reflexivity | exact H].
Qed.

(** The evaluation endpoint on a request that has a JSON object. *)
Lemma calculate_risk_object (data : gmap string json) :
  (app.status (request.calculate_risk json float_ (inr data)) = 500%Z <->
   exists key v e,
     In key ["asset_value"; "threat_event_frequency"; "vulnerability";
             "loss_magnitude"]%string /\
     data !! key = Some v /\ float_ v = inl e) /\
  (forall asset_value threat_event_frequency vulnerability loss_magnitude,
     request.get_float json float_ data "asset_value" 0 = inr asset_value ->
     request.get_float json float_ data "threat_event_frequency" 0
       = inr threat_event_frequency ->
     request.get_float json float_ data "vulnerability" 0 = inr vulnerability ->
     request.get_float json float_ data "loss_magnitude" 0
       = inr loss_magnitude ->
     (asset_value <= 0 ->
      request.calculate_risk json float_ (inr data)
        = {| app.body := app.ErrorBody "Asset value must be greater than 0";
             app.status := 400 |}) /\
     (~ asset_value <= 0 ->
      request.calculate_risk json float_ (inr data)
        = {| app.body :=
               app.ResultsBody true
                 (calculate (init asset_value threat_event_frequency
                               vulnerability loss_magnitude));
             app.status := 200 |})).
Proof.
  split.
  - unfold request.calculate_risk, request.bind. cbn beta iota.
    destruct (request.get_float json float_ data "asset_value" 0)
      as [e1 | a] eqn:E1.
    { split; [| reflexivity]. intros _.
      destruct (get_float_failed _ _ _ _ E1) as (v & Hk & Hv).
      exists "asset_value"%string, v, e1.
      split; [simpl; tauto | split; assumption]. }
    destruct (request.get_float json float_ data "threat_event_frequency" 0)
      as [e2 | t] eqn:E2.
    { split; [| reflexivity]. intros _.
      destruct (get_float_failed _ _ _ _ E2) as (v & Hk & Hv).
      exists "threat_event_frequency"%string, v, e2.
      split; [simpl; tauto | split; assumption]. }
    destruct (request.get_float json float_ data "vulnerability" 0)
      as [e3 | u] eqn:E3.
    { split; [| reflexivity]. intros _.
      destruct (get_float_failed _ _ _ _ E3) as (v & Hk & Hv).
      exists "vulnerability"%string, v, e3.
      split; [simpl; tauto | split; assumption]. }
    destruct (request.get_float json float_ data "loss_magnitude" 0)
      as [e4 | l] eqn:E4.
    { split; [| reflexivity]. intros _.
      destruct (get_float_failed _ _ _ _ E4) as (v & Hk & Hv).
      exists "loss_magnitude"%string, v, e4.
      split; [simpl; tauto | split; assumption]. }
    split.
    + destruct (Qle_bool a 0); discriminate.
    + intros (key & v & e & Hin & Hk & Hv). exfalso.
      simpl in Hin.
      destruct Hin as [<- | [<- | [<- | [<- | []]]]];
        match goal with
        | H : request.get_float json float_ data ?k 0 = inr _ |- _ =>
            match type of Hk with
            | data !! k = _ =>
                rewrite (get_float_fails data k 0 v e Hk Hv) in H;
                discriminate H
            end
        end.
  - intros a t u l E1 E2 E3 E4.
    unfold request.calculate_risk, request.bind. cbn beta iota.
    rewrite E1, E2, E3, E4. split; intros H.
    + apply Qle_bool_iff in H. rewrite H. reflexivity.
    + destruct (Qle_bool a 0) eqn:E; [| reflexivity].
      apply Qle_bool_iff in E. contradiction.
Qed.

(** X5.  The evaluation endpoint converts its four fields before it looks
    at the asset value.  It answers 500 exactly when the request has no
    JSON object or a field that is present does not convert, also when the
    asset value is zero or negative; otherwise it answers 400 when the asset value is at most 0
    and 200, with the metrics of [calculate], when it is not. *)
Theorem calculate_risk_conversions
    (request_json : string + gmap string json) :
  (app.status (request.calculate_risk json float_ request_json) = 500%Z <->
   (exists e, request_json = inl e) \/
   (exists data key v e,
      request_json = inr data /\
      In key ["asset_value"; "threat_event_frequency"; "vulnerability";
              "loss_magnitude"]%string /\
      data !! key = Some v /\ float_ v = inl e)) /\
  (forall data asset_value threat_event_frequency vulnerability loss_magnitude,
     request_json = inr data ->
     request.get_float json float_ data "asset_value" 0 = inr asset_value ->
     request.get_float json float_ data "threat_event_frequency" 0
       = inr threat_event_frequency ->
     request.get_float json float_ data "vulnerability" 0 = inr vulnerability ->
     request.get_float json float_ data "loss_magnitude" 0
       = inr loss_magnitude ->
     (asset_value <= 0 ->
      request.calculate_risk json float_ request_json
        = {| app.body := app.ErrorBody "Asset value must be greater than 0";
             app.status := 400 |}) /\
     (~ asset_value <= 0 ->
      request.calculate_risk json float_ request_json
        = {| app.body :=
               app.ResultsBody true
                 (calculate (init asset_value threat_event_frequency
                               vulnerability loss_magnitude));
             app.status := 200 |})).
Proof.
  destruct request_json as [e0 | data].
  - split.
    + split; [intros _; left; exists e0; reflexivity | reflexivity].
    + intros data a t u l Hd. discriminate Hd.
  - destruct (calculate_risk_object data) as [[H1 H2] H3]. split.
    + split.
      * intros Hs. right. destruct (H1 Hs) as (key & v & e & Hin & Hk & Hv).
        exists data, key, v, e. auto.
      * intros [[e He] | (data' & key & v & e & Hd & Hin & Hk & Hv)];
          [discriminate He |].
        injection Hd as <-. apply H2. exists key, v, e. auto.
    + intros data' a t u l Hd. injection Hd as <-. apply H3.
Qed.

End Requests.

Lemma calculate_risk_conversions_witness :
  app.status
    (request.calculate_risk (option Q) float_of_field
       (inr (<["asset_value" := Some 0]> (<["vulnerability" := None]> ∅))))
    = 500%Z /\
  request.calculate_risk (option Q) float_of_field
    (inr (<["asset_value" := Some 1000000]> ∅))
    = {| app.body :=
           app.ResultsBody true
             (FAIRCalculator.calculate (FAIRCalculator.init 1000000 0 0 0));
         app.status := 200 |}.
Proof.
  split.
  - destruct (calculate_risk_conversions (option Q) float_of_field
                (inr (<["asset_value" := Some 0]>
                        (<["vulnerability" := None]> ∅))))
      as [[_ H] _].
    apply H. right. eexists _, "vulnerability"%string, None, _.
    split; [reflexivity |]. split; [simpl; tauto |].
    split; vm_compute; reflexivity.
  - destruct (calculate_risk_conversions (option Q) float_of_field
                (inr (<["asset_value" := Some 1000000]> ∅))) as [_ H].
    apply (H _ 1000000 0 0 0 eq_refl); try (vm_compute; reflexivity).
    vm_compute. intros C. apply C. reflexivity.
Defined.


Section RequestsMonteCarlo.
Import FAIRCalculator.
Variable json : Type.
Variable float_ : json -> string + Q.
Variable int_ : json -> string + Z.
Variable sqrt : Q -> Q.

(** An iteration count of zero or less makes the simulation raise and
    leaves the generator where it was. *)
Lemma monte_carlo_simulation_refuses self tef_range vuln_range loss_range
    (N : Z) rs :
  (N <= 0)%Z ->
  exists e,
    monte_carlo_simulation sqrt self tef_range vuln_range loss_range N rs
      = (inl e, rs).
Proof.
  intros HN. rewrite monte_carlo_simulation_eq.
  destruct (Z_lt_le_dec N 0%Z) as [Hneg | Hpos].
  - rewrite ale_samples_negative by assumption. eexists. reflexivity.
  - assert (N = 0%Z) by lia. subst N.
    destruct (ale_samples_ok tef_range vuln_range loss_range 0 rs)
      as (xs & Hs & Hl); [lia |].
    rewrite Hs. destruct xs; [| discriminate].
    destruct rs as [st p]. unfold np.advance. cbn [np.stream np.pos].
    change (3 * Z.to_nat 0)%nat with 0%nat. rewrite Nat.add_0_r.
    eexists. reflexivity.
Qed.

Ltac read_field E :=
  match goal with
  | |- context [request.get_float json float_ ?d ?k ?x] =>
      destruct (request.get_float json float_ d k x) as [? | ?] eqn:E;
      [split; [intros _; eexists; reflexivity
              | intros H; cbn in H; discriminate H] |]
  end.

(** The simulation endpoint on a request that has a JSON object. *)
Lemma run_monte_carlo_object (data : gmap string json) rs :
  ((exists key v e,
      In key ["asset_value"; "tef_min"; "tef_max"; "vuln_min"; "vuln_max";
              "loss_min"; "loss_max"]%string /\
      data !! key = Some v /\ float_ v = inl e) \/
   (exists e, request.get_int json int_ data "iterations" 10000 = inl e) \/
   (exists N,
      request.get_int json int_ data "iterations" 10000 = inr N /\
      (N <= 0)%Z) ->
   exists e,
     request.run_monte_carlo json float_ int_ sqrt (inr data) rs
       = (request.failure e, rs)) /\
  (app.status (fst (request.run_monte_carlo json float_ int_ sqrt (inr data) rs))
     = 200%Z ->
   exists N sim,
     request.get_int json int_ data "iterations" 10000 = inr N /\
     (1 <= N)%Z /\
     (forall key v,
        In key ["asset_value"; "tef_min"; "tef_max"; "vuln_min"; "vuln_max";
                "loss_min"; "loss_max"]%string ->
        data !! key = Some v -> exists q, float_ v = inr q) /\
     request.run_monte_carlo json float_ int_ sqrt (inr data) rs
       = ({| app.body := app.SimulationBody true sim; app.status := 200 |},
          np.advance (3 * Z.to_nat N) rs) /\
     iterations sim = N).
Proof.
  unfold request.run_monte_carlo, request.bind. cbn beta iota.
  read_field E1. read_field E2. read_field E3. read_field E4.
  read_field E5. read_field E6. read_field E7.
  destruct (request.get_int json int_ data "iterations" 10000)
    as [e | N] eqn:E8;
    [split; [intros _; eexists; reflexivity
            | intros H; cbn in H; discriminate H] |].
  destruct (Z_lt_le_dec N 1%Z) as [Hlow | Hok].
  - match goal with
    | |- context [monte_carlo_simulation sqrt ?c ?a ?b ?d N rs] =>
        destruct (monte_carlo_simulation_refuses c a b d N rs) as [e He];
        [lia |]; rewrite He
    end.
    split; [intros _; eexists; reflexivity
           | intros H; cbn in H; discriminate H].
  - match goal with
    | |- context [monte_carlo_simulation sqrt ?c ?a ?b ?d N rs] =>
        destruct (monte_carlo_simulation_ok sqrt c a b d N rs Hok)
          as (x & xs & _ & _ & Hr); rewrite Hr
    end.
    split.
    + intros [(key & v & e & Hin & Hk & Hv) | [[e He] | (N' & HN' & Hle)]];
        exfalso; [| discriminate He | injection HN' as <-; lia].
      simpl in Hin.
      destruct Hin as [<- | [<- | [<- | [<- | [<- | [<- | [<- | []]]]]]]];
        match goal with
        | H : request.get_float json float_ data ?k ?d = inr _ |- _ =>
            match type of Hk with
            | data !! k = _ =>
                rewrite (get_float_fails json float_ data k d v e Hk Hv) in H;
                discriminate H
            end
        end.
    + intros _. eexists N, _. split; [reflexivity |]. split; [exact Hok |].
      split; [| split; reflexivity].
      intros key v Hin Hk. simpl in Hin.
      destruct Hin as [<- | [<- | [<- | [<- | [<- | [<- | [<- | []]]]]]]];
        match goal with
        | H : request.get_float json float_ data ?k ?d = inr ?q |- _ =>
            match type of Hk with
            | data !! k = _ =>
                unfold request.get_float in H; rewrite Hk in H;
                exists q; exact H
            end
        end.
Qed.

(** X7.  The simulation endpoint converts its eight fields first.  When the
    request has no JSON object, a field that is present does not convert,
    or the iteration count is zero or negative, it answers 500 with [success] false and the generator is
    left where it was.  It answers 200 only when every field converts and
    the iteration count [N] is at least 1; the result then has
    [iterations = N] and the generator is [3 * N] draws further on. *)
Theorem run_monte_carlo_refusals
    (request_json : string + gmap string json) rs :
  ((exists e, request_json = inl e) \/
   (exists data key v e,
      request_json = inr data /\
      In key ["asset_value"; "tef_min"; "tef_max"; "vuln_min"; "vuln_max";
              "loss_min"; "loss_max"]%string /\
      data !! key = Some v /\ float_ v = inl e) \/
   (exists data e,
      request_json = inr data /\
      request.get_int json int_ data "iterations" 10000 = inl e) \/
   (exists data N,
      request_json = inr data /\
      request.get_int json int_ data "iterations" 10000 = inr N /\
      (N <= 0)%Z) ->
   exists e,
     request.run_monte_carlo json float_ int_ sqrt request_json rs
       = (request.failure e, rs)) /\
  (app.status
     (fst (request.run_monte_carlo json float_ int_ sqrt request_json rs))
     = 200%Z ->
   exists data N sim,
     request_json = inr data /\
     request.get_int json int_ data "iterations" 10000 = inr N /\
     (1 <= N)%Z /\
     (forall key v,
        In key ["asset_value"; "tef_min"; "tef_max"; "vuln_min"; "vuln_max";
                "loss_min"; "loss_max"]%string ->
        data !! key = Some v -> exists q, float_ v = inr q) /\
     request.run_monte_carlo json float_ int_ sqrt request_json rs
       = ({| app.body := app.SimulationBody true sim; app.status := 200 |},
          np.advance (3 * Z.to_nat N) rs) /\
     iterations sim = N).
Proof.
  destruct request_json as [e0 | data].
  - split; [intros _; exists e0; reflexivity | intros H; discriminate H].
  - destruct (run_monte_carlo_object data rs) as [H1 H2]. split.
    + intros [[e He] | [(d & key & v & e & Hd & H) | [(d & e & Hd & H)
                                                     | (d & N & Hd & H)]]];
        [discriminate He | | |]; injection Hd as <-; apply H1.
      * left. exists key, v, e. exact H.
      * right. left. exists e. exact H.
      * right. right. exists N. exact H.
    + intros Hs. destruct (H2 Hs) as (N & sim & H).
      exists data, N, sim. split; [reflexivity | exact H].
Qed.

End RequestsMonteCarlo.

Lemma run_monte_carlo_refusals_witness :
  (exists e,
     request.run_monte_carlo (option Q) float_of_field int_of_field sqrt6
       (inr (<["iterations" := Some (5 # 10)]> ∅)) rs0
       = (request.failure e, rs0)) /\
  (exists e,
     request.run_monte_carlo (option Q) float_of_field int_of_field sqrt6
       (inr (<["iterations" := Some 2]> (<["tef_min" := None]> ∅))) rs0
       = (request.failure e, rs0)) /\
  (exists data N sim,
     inr (<["iterations" := Some (25 # 10)]> ∅)
       = (inr data : string + gmap string (option Q)) /\
     request.get_int (option Q) int_of_field data "iterations" 10000 = inr N /\
     (1 <= N)%Z /\
     request.run_monte_carlo (option Q) float_of_field int_of_field sqrt6
       (inr (<["iterations" := Some (25 # 10)]> ∅)) rs0
       = ({| app.body := app.SimulationBody true sim; app.status := 200 |},
          np.advance (3 * Z.to_nat N) rs0) /\
     FAIRCalculator.iterations sim = N).
Proof.
  split; [| split].
  - destruct (run_monte_carlo_refusals (option Q) float_of_field int_of_field
                sqrt6 (inr (<["iterations" := Some (5 # 10)]> ∅)) rs0)
      as [H _].
    apply H. right. right. right. eexists _, 0%Z.
    split; [reflexivity |]. split; vm_compute; [reflexivity | discriminate].
  - destruct (run_monte_carlo_refusals (option Q) float_of_field int_of_field
                sqrt6
                (inr (<["iterations" := Some 2]> (<["tef_min" := None]> ∅)))
                rs0) as [H _].
    apply H. right. left. eexists _, "tef_min"%string, None, _.
    split; [reflexivity |]. split; [simpl; tauto |].
    split; vm_compute; reflexivity.
  - destruct (run_monte_carlo_refusals (option Q) float_of_field int_of_field
                sqrt6 (inr (<["iterations" := Some (25 # 10)]> ∅)) rs0)
      as [_ H].
    destruct H as (data & N & sim & Hd & HN & H1 & _ & Hr & Hi);
      [vm_compute; reflexivity |].
    exists data, N, sim. repeat split; assumption.
Defined.

(** On a request whose fields are all numbers the conversions are the
    identity ([int] truncates), and the handlers above are those of module
    [app]. *)
Lemma get_float_number (data : gmap string Q) key dflt :
  request.get_float Q inr data key dflt = inr (app.get data key dflt).
Proof.
  unfold request.get_float, app.get. destruct (data !! key); reflexivity.
Qed.

Lemma request_calculate_risk_numbers (data : gmap string Q) :
  request.calculate_risk Q inr (inr data) = app.calculate_risk data.
Proof.
  unfold request.calculate_risk, app.calculate_risk.
  cbn [request.bind]. rewrite !get_float_number. reflexivity.
Qed.

Lemma request_run_monte_carlo_numbers sqrt (data : gmap string Q) rs :
  request.run_monte_carlo Q inr (fun v => inr (app.int v)) sqrt (inr data) rs
    = app.run_monte_carlo sqrt data rs.
Proof.
  unfold request.run_monte_carlo, app.run_monte_carlo.
  cbn [request.bind]. rewrite !get_float_number.
  assert (E : request.get_int Q (fun v => inr (app.int v)) data "iterations" 10000
              = inr (app.int (app.get data "iterations" 10000))).
  { unfold request.get_int, app.get.
    destruct (data !! "iterations"); reflexivity. }
  rewrite E. cbn [request.bind].
  destruct (FAIRCalculator.monte_carlo_simulation _ _ _ _ _ _ _)
    as [[e | r] rs']; reflexivity.
Qed.
